(** * AgriQ: the climate service, the HTTP handlers and the allocation optimizer

    The development follows the layout of the repository:
    - [Py]        the pieces of the Python runtime the code relies on
                  (exceptions, JSON values, conversions, the [random] module);
    - [Climate]   [logic/climate_service.py];
    - [App]       the three API handlers of [app.py];
    - [Optimizer] the simulated-annealing allocation engine of the design document;
    - [Pipeline]  the market history of [data_pipeline.py].

    Python floats are IEEE binary64 numbers and are embedded as Rocq's primitive
    floats.  Python integers are unbounded and are embedded as [Z]. *)

From Stdlib Require Import ZArith Floats String Ascii List Lia.
From Stdlib Require Import DecimalString.
From stdpp Require Import base option list gmap strings sorting.

Set Warnings "-inexact-float".
Local Open Scope string_scope.
Local Open Scope Z_scope.

(** ** The Python runtime *)

Module Py.

(** Exceptions that the modelled code can meet.  [Raised] stands for whatever a
    collaborator outside the repository throws. *)
Inductive exn : Type :=
| KeyError (key : string)
| IndexError
| AttributeError
| TypeError
| ValueError
| OverflowError
| ZeroDivisionError
| Raised (msg : string).

(** A computation that returns or raises. *)
Definition result (A : Type) : Type := exn + A.

Definition ret {A} (a : A) : result A := inr a.
Definition raise {A} (e : exn) : result A := inl e.
Definition bind {A B} (r : result A) (k : A -> result B) : result B :=
  match r with
  | inl e => inl e
  | inr a => k a
  end.

(** Values that travel through requests and response dictionaries.
    [VOther] stands for JSON arrays and objects, which are unhashable. *)
Inductive value : Type :=
| VNone
| VBool (b : bool)
| VInt (z : Z)
| VFloat (x : float)
| VStr (s : string)
| VOther.

(** The float nearest to an integer (ties to even), as the interpreter
    converts the integer operand of a mixed operation.  The integers that
    reach it in this program are constants and month numbers, which binary64
    holds exactly; [float_of_int] is the conversion of an arbitrary integer. *)
Definition float_of_Z (z : Z) : float :=
  SF2Prim (binary_normalize prec emax z 0 false).

(** [float(n)] on an integer: the nearest float, or [OverflowError] when the
    integer is too large to convert. *)
Definition float_of_int (z : Z) : result float :=
  match binary_normalize prec emax z 0 false with
  | S754_infinity _ => raise OverflowError
  | sf => ret (SF2Prim sf)
  end.

(** [int(x)]: truncation toward zero; NaN and the infinities are refused. *)
Definition int_of_float (x : float) : result Z :=
  match Prim2SF x with
  | S754_nan => raise ValueError
  | S754_infinity _ => raise OverflowError
  | S754_zero _ => ret 0
  | S754_finite s m e =>
      let mag := if (0 <=? e)%Z then Z.pos m * 2 ^ e else Z.pos m / 2 ^ (- e) in
      ret (if s then - mag else mag)
  end.

(** [str(n)] for an integer. *)
Definition str_of_Z (z : Z) : string := NilZero.string_of_int (Z.to_int z).

(** *** ASCII letter case.  [str.capitalize] itself follows the Unicode case
    mappings and is a parameter of the code that calls it; [capitalize_ascii]
    is what it computes on ASCII text (the first character upper-cased, the
    others lower-cased), and [lowercase] folds the ASCII letters of any text. *)
Definition upper (a : ascii) : ascii :=
  let n := nat_of_ascii a in
  if ((97 <=? n) && (n <=? 122))%nat then ascii_of_nat (n - 32) else a.

Definition lower (a : ascii) : ascii :=
  let n := nat_of_ascii a in
  if ((65 <=? n) && (n <=? 90))%nat then ascii_of_nat (n + 32) else a.

Fixpoint lowercase (s : string) : string :=
  match s with
  | EmptyString => EmptyString
  | String a rest => String (lower a) (lowercase rest)
  end.

Definition capitalize_ascii (s : string) : string :=
  match s with
  | EmptyString => EmptyString
  | String a rest => String (upper a) (lowercase rest)
  end.

(** [d.get(key, dflt)] on a dictionary with string keys.  Hashing an array or
    an object raises; every other key that is not a string misses. *)
Definition dict_get {V} (d : gmap string V) (key : value) (dflt : V) : result V :=
  match key with
  | VStr s => ret (default dflt (d !! s))
  | VOther => raise TypeError
  | _ => ret dflt
  end.

(** [d[key]] for a string key. *)
Definition dict_item {V} (d : gmap string V) (key : string) : result V :=
  match d !! key with
  | Some v => ret v
  | None => raise (KeyError key)
  end.

(** [l[j]] on a list; a negative index counts from the end. *)
Definition list_item {A} (l : list A) (j : Z) : result A :=
  let i := if (j <? 0)%Z then (Z.of_nat (length l) + j)%Z else j in
  if (i <? 0)%Z then raise IndexError
  else match l !! Z.to_nat i with
       | Some a => ret a
       | None => raise IndexError
       end.

(** Running a fallible function over a list, left to right. *)
Fixpoint mapM {A B} (f : A -> result B) (l : list A) : result (list B) :=
  match l with
  | [] => ret []
  | a :: rest =>
      bind (f a) (fun b => bind (mapM f rest) (fun bs => ret (b :: bs)))
  end.

(** The true division [a / b] of two integers.  [quotient] is the correctly
    rounded quotient the interpreter computes for a non-zero divisor. *)
Definition int_truediv (quotient : Z -> Z -> float) (a b : Z) : result float :=
  if (b =? 0)%Z then raise ZeroDivisionError else ret (quotient a b).

(** *** The [random] module.  Its generator is a piece of global state; the two
    primitives are [random.random()] and [Random._randbelow(n)], the latter
    returning an integer of [range(n)] for a positive [n]. *)
Class Random (G : Type) : Type := {
  random : G -> float * G;
  randbelow : Z -> G -> Z * G;
  randbelow_range : forall n g, 0 < n -> 0 <= fst (randbelow n g) < n
}.

Section WithGenerator.
Context {G : Type} `{Random G}.

(** [random.uniform(a, b)] is [a + (b - a) * self.random()]. *)
Definition uniform (a b : float) (g : G) : float * G :=
  let '(u, g') := random g in
  (PrimFloat.add a (PrimFloat.mul (PrimFloat.sub b a) u), g').

(** [random.randrange(start, stop)] with integer bounds. *)
Definition randrange (start stop : Z) (g : G) : result Z * G :=
  let width := stop - start in
  if 0 <? width then
    let '(k, g') := randbelow width g in (ret (start + k), g')
  else (raise ValueError, g).

(** [random.randint(a, b)] is [randrange(a, b + 1)]. *)
Definition randint (a b : Z) (g : G) : result Z * G := randrange a (b + 1) g.
End WithGenerator.

End Py.

Import Py.

Notation "'try!' x ':=' r 'in' k" := (Py.bind r (fun x => k))
  (at level 10, x pattern, r at level 100, k at level 200).

(** ** The order of binary64

    The comparisons of IEEE numbers read as a lexicographic order: the class of
    the number (negative infinity, negative, zero, positive, positive
    infinity), then the exponent, then the mantissa.  NaN has no place in it. *)

Module FloatOrder.
(** The place of a number in the order. *)
Definition rank (f : spec_float) : Z * Z * Z :=
  match f with
  | S754_nan => (0, 0, 0)
  | S754_zero _ => (0, 0, 0)
  | S754_infinity s => (if s then -2 else 2, 0, 0)
  | S754_finite s m e => if s then (-1, - e, Z.neg m) else (1, e, Z.pos m)
  end.

(** The comparison of two places. *)
Definition rank_compare (a b : Z * Z * Z) : comparison :=
  match a.1.1 ?= b.1.1 with
  | Eq => match a.1.2 ?= b.1.2 with
          | Eq => a.2 ?= b.2
          | c => c
          end
  | c => c
  end.
End FloatOrder.

(** ** [logic/climate_service.py] *)

Module Climate.

(** One entry of [ClimateService.climate_profiles]. *)
Record profile : Type := {
  base_temp : Z;
  rain_factor : float;
  type : string
}.

Definition climate_profiles : gmap string profile :=
  <["Jenin" := {| base_temp := 25; rain_factor := 1.2; type := "Mediterranean" |}]>
  (<["Jericho" := {| base_temp := 32; rain_factor := 0.2; type := "Arid" |}]>
  (<["Hebron" := {| base_temp := 18; rain_factor := 1.1; type := "Highland" |}]>
  (<["Nablus" := {| base_temp := 22; rain_factor := 1.3; type := "Mediterranean" |}]>
  (<["Tulkarm" := {| base_temp := 24; rain_factor := 1.4; type := "Coastal Plain" |}]>
  (<["Gaza" := {| base_temp := 26; rain_factor := 0.9; type := "Coastal" |}]>
  (<["Ramallah" := {| base_temp := 20; rain_factor := 1.2; type := "Highland" |}]>
   ∅)))))).

(** The keys of [climate_profiles]. *)
Definition districts : list string :=
  ["Jenin"; "Jericho"; "Hebron"; "Nablus"; "Tulkarm"; "Gaza"; "Ramallah"].

(** [_get_season_modifiers]: season name, temperature modifier, rain modifier. *)
Definition _get_season_modifiers (month : Z) : string * float * float :=
  if bool_decide (month ∈ [12; 1; 2]) then ("Winter", (-8.0)%float, 2.0%float)
  else if bool_decide (month ∈ [3; 4; 5]) then ("Spring", 0.0%float, 0.8%float)
  else if bool_decide (month ∈ [6; 7; 8]) then ("Summer", 8.0%float, 0.0%float)
  else ("Autumn", (-2.0)%float, 0.5%float).

(** [_calculate_risk] *)
Definition _calculate_risk (temp rain : float) (c_type : string) : string :=
  if PrimFloat.ltb 38 temp then "High Heat Stress"
  else if PrimFloat.ltb temp 5 then "Frost Warning"
  else if String.eqb c_type "Arid" && PrimFloat.ltb 100 rain then "Flash Flood Risk"
  else "Stable".

Section Service.
Context {G : Type} `{Random G}.

(** The built-ins [str.capitalize] and [round(x, ndigits)] on floats. *)
Variable capitalize : string -> string.
Variable round_nd : float -> Z -> float.

(** The body of [get_seasonal_forecast] once the profile is chosen.  [month]
    is [datetime.datetime.now().month]. *)
Definition project (city : string) (p : profile) (month : Z) (g : G)
  : gmap string value * G :=
  let '(season_name, temp_mod, rain_mod) := _get_season_modifiers month in
  let projected_temp := PrimFloat.add (float_of_Z (base_temp p)) temp_mod in
  let '(u, g') := uniform 0.8 1.2 g in
  let projected_rain :=
    PrimFloat.mul (PrimFloat.mul (PrimFloat.mul (rain_factor p) rain_mod) u)
                  (float_of_Z 50) in
  (<["location" := VStr city]>
   (<["season_name" := VStr season_name]>
   (<["avg_temp_c" := VFloat (round_nd projected_temp 1)]>
   (<["rainfall_mm" := VFloat (round_nd projected_rain 1)]>
   (<["climate_type" := VStr (type p)]>
   (<["risk_factor" := VStr (_calculate_risk projected_temp projected_rain (type p))]>
    ∅))))), g').

(** [get_seasonal_forecast].  The default handed to [dict.get] is
    [self.climate_profiles['Jenin']], a subscript that raises when the key is
    absent. *)
Definition get_seasonal_forecast (location : string) (month : Z) (g : G)
  : result (gmap string value) * G :=
  let city := capitalize location in
  match climate_profiles !! "Jenin" with
  | None => (raise (KeyError "Jenin"), g)
  | Some jenin =>
      let profile := default jenin (climate_profiles !! city) in
      let '(d, g') := project city profile month g in
      (ret d, g')
  end.
End Service.

End Climate.

(** ** [app.py] *)

Module App.

Definition CROPS_LIST : list string :=
  ["Wheat"; "Tomato"; "Olive"; "Banana"; "Grapes"; "Watermelon"; "Strawberry"].

(** The N-P-K values of a soil type. *)
Record nutrients : Type := { n : Z; p : Z; k : Z }.

Definition SOIL_NUTRIENT_MAP : gmap string nutrients :=
  <["Clay" := {| n := 80; p := 60; k := 70 |}]>
  (<["Loamy" := {| n := 60; p := 50; k := 60 |}]>
  (<["Sandy" := {| n := 30; p := 20; k := 30 |}]>
  (<["Default" := {| n := 50; p := 50; k := 50 |}]> ∅))).

(** What a handler sends back: the JSON body, or the 500 answer built by its
    [except Exception] clause. *)
Inductive response (A : Type) : Type :=
| Ok (body : A)
| InternalServerError (e : exn).
Arguments Ok {A} body.
Arguments InternalServerError {A} e.

Definition respond {A} (r : result A) : response A :=
  match r with
  | inl e => InternalServerError e
  | inr a => Ok a
  end.

(** *** [get_next_6_months]; [month] is [datetime.datetime.now().month]. *)
Definition months_names : list string :=
  ["Jan"; "Feb"; "Mar"; "Apr"; "May"; "Jun";
   "Jul"; "Aug"; "Sep"; "Oct"; "Nov"; "Dec"].

Definition get_next_6_months (month : Z) : result (list string) :=
  let current_month_index := month - 1 in
  mapM (fun i => list_item months_names ((current_month_index + i) mod 12))
       (seqZ 0 6).

(** *** [/api/analyze] *)

(** One element of the ['crops'] list. *)
Record crop_entry : Type := {
  name : string;
  score : float;
  status : string
}.

Record analyze_body : Type := {
  crops : list crop_entry;
  climate_info : gmap string value
}.

(** [sorted(results, key=lambda x: x['score'], reverse=True)]: a stable sort,
    highest score first.  On scores that are numbers the result of a stable
    sort is determined, and it is the list built here by insertion.  With a
    NaN among the scores the comparisons are no order any more, and the list
    that [list.sort] leaves depends on the moves of its algorithm: nothing is
    claimed about that case beyond the elements of the list. *)
Fixpoint insert_by_score (x : crop_entry) (l : list crop_entry) : list crop_entry :=
  match l with
  | [] => [x]
  | y :: rest =>
      if PrimFloat.ltb (score x) (score y) then y :: insert_by_score x rest
      else x :: y :: rest
  end.

Definition sorted_by_score (l : list crop_entry) : list crop_entry :=
  foldr insert_by_score [] l.

Section Handlers.
Context {G : Type} `{Random G}.

(** Built-ins of the interpreter: [str.capitalize], [round(x, ndigits)],
    [float(s)] on a string, and the quotient of two integers. *)
Variable capitalize : string -> string.
Variable round_nd : float -> Z -> float.
Variable float_of_str : string -> result float.
Variable long_true_divide : Z -> Z -> float.

(** The services that [app.py] imports from [logic.logic] and creates at
    start-up: [agronomist.predict_feasibility],
    [economist.get_national_demand] and
    [climate_service.get_seasonal_forecast]; the last one receives the
    location, and the month is what its clock reads. *)
Variable predict_feasibility :
  value -> string -> Z -> Z -> Z -> float -> gmap string value -> result float.
Variable get_national_demand : string -> result float.
Variable climate_forecast : value -> Z -> G -> result (gmap string value) * G.

(** The built-in [float(v)]. *)
Definition to_float (v : value) : result float :=
  match v with
  | VFloat x => ret x
  | VInt z => float_of_int z
  | VBool b => ret (if b then 1%float else 0%float)
  | VStr s => float_of_str s
  | VNone | VOther => raise TypeError
  end.

(** The climate service when [logic.logic] hands out the [ClimateService] of
    [climate_service.py]: only a string has a [capitalize] method. *)
Definition seasonal_forecast (location : value) (month : Z) (g : G)
  : result (gmap string value) * G :=
  match location with
  | VStr s => Climate.get_seasonal_forecast capitalize round_nd s month g
  | _ => (raise AttributeError, g)
  end.

(** The body of the inference loop for one crop. *)
Definition score_crop (location : value) (chem_profile : nutrients) (ph : float)
    (climate_data : gmap string value) (crop : string) : result crop_entry :=
  try! score := predict_feasibility location crop
                  (n chem_profile) (p chem_profile) (k chem_profile)
                  ph climate_data in
  let status :=
    if PrimFloat.ltb 75 score then "green"
    else if PrimFloat.ltb 45 score then "yellow" else "red" in
  ret {| name := crop; score := round_nd score 2; status := status |}.

(** [analyze]; [json] is [request.json], [None] when the body is null. *)
Definition analyze (json : option (gmap string value)) (month : Z) (g : G)
  : response analyze_body * G :=
  let data := default ∅ json in
  let location := default (VStr "Jenin") (data !! "location") in
  let soil_type := default (VStr "Loamy") (data !! "soil") in
  match to_float (default (VFloat 6.5) (data !! "ph")) with
  | inl e => (InternalServerError e, g)
  | inr ph =>
      let '(forecast, g') := climate_forecast location month g in
      (respond
         (try! climate_data := forecast in
          try! fallback := dict_item SOIL_NUTRIENT_MAP "Default" in
          try! chem_profile := dict_get SOIL_NUTRIENT_MAP soil_type fallback in
          try! results :=
            mapM (score_crop location chem_profile ph climate_data) CROPS_LIST in
          ret {| crops := sorted_by_score results; climate_info := climate_data |}),
       g')
  end.

(** *** [/api/market] *)

Record market_body : Type := {
  months : list string;
  prices : list float;
  demand : list Z
}.

(** The divisor of the price formula. *)
Definition divisor (adjusted_demand : Z) : Z :=
  if 0 <? adjusted_demand then adjusted_demand else 1.

Definition price_of (adjusted_demand : Z) : result float :=
  try! q := int_truediv long_true_divide 4000 (divisor adjusted_demand) in
  ret (round_nd q 2).

(** One turn of the loop: the adjusted demand and the price. *)
Definition market_turn (base_demand : float) (g : G) : result (Z * float) * G :=
  let '(volatility, g') := uniform (-0.1) 0.1 g in
  (try! adjusted_demand :=
     int_of_float
       (PrimFloat.mul base_demand (PrimFloat.add (float_of_Z 1) volatility)) in
   try! price := price_of adjusted_demand in
   ret (adjusted_demand, price), g').

(** [for _ in range(turns)], appending to [prices] and [demands]. *)
Fixpoint market_loop (turns : nat) (base_demand : float)
    (prices : list float) (demands : list Z) (g : G)
  : result (list float * list Z) * G :=
  match turns with
  | O => (ret (prices, demands), g)
  | S turns' =>
      let '(r, g') := market_turn base_demand g in
      match r with
      | inl e => (raise e, g')
      | inr (adjusted_demand, price) =>
          market_loop turns' base_demand
            (prices ++ [price]) (demands ++ [adjusted_demand]) g'
      end
  end.

Definition market (month : Z) (g : G) : response market_body * G :=
  match (try! dates := get_next_6_months month in
         try! base_demand := get_national_demand "Tomato" in
         ret (dates, base_demand)) with
  | inl e => (InternalServerError e, g)
  | inr (dates, base_demand) =>
      let '(r, g') := market_loop 6 base_demand [] [] g in
      (respond
         (try! (prices, demands) := r in
          ret {| months := dates; prices := prices; demand := demands |}),
       g')
  end.

(** *** [/api/optimize] *)

(** [optimizer.run_simulated_annealing] belongs to [logic.logic]; the handler
    only tests its first result for truth and subscripts it with [0]. *)
Variables allocation heatmap : Type.
Variable truth : allocation -> bool.
Variable item0 : allocation -> result value.
Variable run_simulated_annealing :
  gmap Z (gmap string value) -> gmap string Z -> G ->
  result (allocation * heatmap) * G.

(** [{i: {} for i in range(10)}] *)
Definition farmers_cluster : gmap Z (gmap string value) :=
  list_to_map ((fun i => (i, ∅)) <$> seqZ 0 10).

Definition national_demand : gmap string Z :=
  <["Tomato" := 20]> (<["Wheat" := 15]> (<["Olive" := 15]> ∅)).

Record assignment : Type := {
  crop : value;
  confidence : string
}.

Record optimize_body : Type := {
  assignment_of : assignment;
  heatmap_of : heatmap
}.

Definition optimize (g : G) : response optimize_body * G :=
  let '(r, g1) := run_simulated_annealing farmers_cluster national_demand g in
  match r with
  | inl e => (InternalServerError e, g1)
  | inr (allocation, heatmap_data) =>
      let '(drawn, g2) := randint 94 99 g1 in
      (respond
         (try! confidence_score := drawn in
          try! first :=
            (if truth allocation then item0 allocation else ret (VStr "None")) in
          ret {| assignment_of :=
                   {| crop := first;
                      confidence := str_of_Z confidence_score ++ "%" |};
                 heatmap_of := heatmap_data |}),
       g2)
  end.
End Handlers.

Arguments optimize {G H allocation heatmap} truth item0 run_simulated_annealing g.
Arguments assignment_of {heatmap} o.
Arguments heatmap_of {heatmap} o.

End App.

(** ** The allocation optimizer

    [logic/logic.py], which holds [QuantumOptimizer], is not among the sources;
    the engine below is written from the design document (sections 3 to 7).
    Capacities, demand, scores, energies and temperature are floats, as the
    document types them (sections 4.2 and 6), and every sum is accumulated in
    the order in which the engine enumerates its terms. *)

Module Optimizer.

(** Modelled from the spec: the error taxonomy of section 7, which the missing
    [logic/logic.py] would declare.  [FeasibilityLookupError] is recovered inside
    the adapter and never reaches the caller. *)
Inductive error : Type :=
| InvalidDemandError
| EmptyClusterError
| InsufficientCropsError.

(** Modelled from the spec: the Farmer record of section 3 (the missing
    optimizer's input); the identifier is the key under which the record is
    supplied. *)
Record farmer : Type := {
  capacity : option float;
  location : option string;
  soil : option string
}.

(** Modelled from the spec: "default 1 unit if unspecified" (section 3),
    part of the missing optimizer. *)
Definition capacity_of (f : farmer) : float := default 1%float (capacity f).

(** Modelled from the spec: the [config] argument of the missing optimizer's
    entry point (section 6). *)
Record config : Type := {
  seed : Z;
  maxIterations : nat;
  initialTemperature : float;
  coolingRate : float;
  infeasibilityWeight : float;
  temperatureFloor : float
}.

(** Modelled from the spec: the "explicitly seeded generator" that the missing
    engine threads through the search (sections 4.4 and 9). *)
Class Generator (G : Type) : Type := {
  seeded : Z -> G;
  next_index : G -> nat * G;
  next_unit : G -> float * G
}.

(** Modelled from the spec: a uniform pick among [bound] alternatives, as the
    missing engine makes for the farmer and for the crop. *)
Definition draw_below {G} `{Generator G} (bound : nat) (g : G) : nat * G :=
  let '(r, g') := next_index g in ((r mod bound)%nat, g').

(** Modelled from the spec: the sums of the energy function of the missing
    engine, accumulated from 0 in the order of the terms. *)
Definition fsum (l : list float) : float := fold_left PrimFloat.add l 0%float.

(** Modelled from the spec: the Allocation State and the Best Snapshot of
    section 3 ("the lowest-energy Allocation State observed, plus its energy
    value"), with the temperature and the generator the missing engine owns. *)
Record machine (G : Type) : Type := {
  current : gmap Z string;
  current_energy : float;
  best : gmap Z string;
  best_energy : float;
  temperature : float;
  iteration : nat;
  generator : G
}.
Arguments current {G} _.
Arguments current_energy {G} _.
Arguments best {G} _.
Arguments best_energy {G} _.
Arguments temperature {G} _.
Arguments iteration {G} _.
Arguments generator {G} _.

Section Engine.
Context {G : Type} `{Generator G}.

(** The external feasibility scorer, already applied to the attributes of the
    farmer: [None] when the look-up fails. *)
Variable external_score : Z -> string -> option float.

(** The exponential of the mathematics library. *)
Variable exp : float -> float.

Variable farmers : gmap Z farmer.
Variable demand : gmap string float.
Variable cfg : config.

(** Modelled from the spec: the farmers of the cluster in the fixed order in
    which the missing engine enumerates them. *)
Definition roster : list (Z * farmer) := map_to_list farmers.

(** Modelled from the spec: the identifiers of the farmers, in the order of the
    roster of the missing engine. *)
Definition ids : list Z := roster.*1.

(** Modelled from the spec: the demand targets (crop, tons) in the fixed order
    in which the missing engine enumerates them. *)
Definition targets : list (string * float) := map_to_list demand.

(** Modelled from the spec: the crop set of the missing engine, the crops that
    carry a demand target. *)
Definition crops : list string := targets.*1.

(** Modelled from the spec: Demand Normalizer (4.1), "crops with zero or
    missing demand are treated as demand 0"; part of the missing optimizer. *)
Definition target (c : string) : float := default 0%float (demand !! c).

(** Modelled from the spec: Feasibility Adapter (4.2) of the missing
    optimizer: a failed look-up counts as 0, a score out of range is clamped
    into [0,100]; a score that is not a number counts as 0 too. *)
Definition score (i : Z) (c : string) : float :=
  match external_score i c with
  | None => 0%float
  | Some s =>
      if PrimFloat.leb 0 s && PrimFloat.leb s 100 then s
      else if PrimFloat.ltb 100 s then 100%float
      else 0%float
  end.

(** Modelled from the spec: [producedByCrop] (section 3), the derived
    attribute of the missing Allocation State: the capacities of the farmers
    of [l] that hold the crop, added up in the order of [l]. *)
Definition produced_by (l : list (Z * farmer)) (c : string) (st : gmap Z string)
  : float :=
  fsum ((fun x => capacity_of x.2) <$> filter (fun x => st !! x.1 = Some c) l).

(** Modelled from the spec: [producedByCrop[crop]], the capacity of the
    farmers that the missing Allocation State assigns to the crop. *)
Definition producedByCrop (c : string) (st : gmap Z string) : float :=
  produced_by roster c st.

(** Modelled from the spec: one summand of the demand term (4.3) of the missing
    optimizer, the squared deviation of a crop from its target. *)
Definition deviation (st : gmap Z string) (x : string * float) : float :=
  PrimFloat.mul (PrimFloat.sub (producedByCrop x.1 st) x.2)
                (PrimFloat.sub (producedByCrop x.1 st) x.2).

(** Modelled from the spec: [demandTerm] (4.3) of the missing optimizer. *)
Definition demandTerm (st : gmap Z string) : float := fsum (deviation st <$> targets).

(** Modelled from the spec: one summand of the infeasibility term (4.3) of the
    missing optimizer, [100 - score(farmer, assignedCrop)]. *)
Definition infeasibility (st : gmap Z string) (x : Z * farmer) : float :=
  match st !! x.1 with
  | Some c => PrimFloat.sub 100 (score x.1 c)
  | None => 0%float
  end.

(** Modelled from the spec: [infeasibilityTerm] (4.3) of the missing
    optimizer. *)
Definition infeasibilityTerm (st : gmap Z string) : float :=
  fsum (infeasibility st <$> roster).

(** Modelled from the spec: [energy(state) = demandTerm + λ · infeasibilityTerm]
    (4.3) of the missing optimizer. *)
Definition energy (st : gmap Z string) : float :=
  PrimFloat.add (demandTerm st)
                (PrimFloat.mul (infeasibilityWeight cfg) (infeasibilityTerm st)).

(** Modelled from the spec: the incremental update of 4.3 in the missing
    engine: moving farmer [i] of capacity [w] from crop [a] to crop [b]
    touches the two crops and the farmer's own penalty. *)
Definition delta (st : gmap Z string) (i : Z) (w : float) (a b : string) : float :=
  let pa := PrimFloat.sub (producedByCrop a st) (target a) in
  let pb := PrimFloat.sub (producedByCrop b st) (target b) in
  let pa' := PrimFloat.sub pa w in
  let pb' := PrimFloat.add pb w in
  PrimFloat.add
    (PrimFloat.add
       (PrimFloat.sub (PrimFloat.mul pa' pa') (PrimFloat.mul pa pa))
       (PrimFloat.sub (PrimFloat.mul pb' pb') (PrimFloat.mul pb pb)))
    (PrimFloat.mul (infeasibilityWeight cfg)
                   (PrimFloat.sub (score i a) (score i b))).

(** Modelled from the spec: the input validation of sections 4.1, 4.4 and 7
    in the missing optimizer.  The empty cluster is reported first, since it
    is raised "regardless of demand content" (section 8). *)
Definition validate : option error :=
  match roster with
  | [] => Some EmptyClusterError
  | _ :: _ =>
      match targets with
      | [] => Some InvalidDemandError
      | _ :: _ =>
          if PrimFloat.eqb (fsum targets.*2) 0 then Some InvalidDemandError
          else if (length crops <? 2)%nat then Some InsufficientCropsError
          else None
      end
  end.

(** Modelled from the spec: state Initial of 4.4 in the missing engine:
    every farmer receives a crop drawn from the crop set. *)
Fixpoint random_assignment (l : list Z) (g : G) : gmap Z string * G :=
  match l with
  | [] => (∅, g)
  | i :: rest =>
      let '(j, g1) := draw_below (length crops) g in
      let '(st, g2) := random_assignment rest g1 in
      (<[i := default "" (crops !! j)]> st, g2)
  end.

(** Modelled from the spec: the machine in state Initial (4.4) of the missing
    engine: the best snapshot is the initial state. *)
Definition initial : machine G :=
  let '(st, g) := random_assignment ids (seeded (seed cfg)) in
  {| current := st; current_energy := energy st;
     best := st; best_energy := energy st;
     temperature := initialTemperature cfg;
     iteration := 0;
     generator := g |}.

(** Modelled from the spec: the Metropolis criterion of 4.4 in the missing
    engine: "accept the move unconditionally if ΔE ≤ 0; otherwise accept with
    probability exp(−ΔE / T)", decided by one uniform draw [u]. *)
Definition accepts (dE u T : float) : bool :=
  PrimFloat.leb dE 0
  || PrimFloat.ltb u (exp (PrimFloat.div (PrimFloat.opp dE) T)).

(** Modelled from the spec: Cool (4.4), after every step of the missing
    engine. *)
Definition cool (m : machine G) (g : G) : machine G :=
  {| current := current m; current_energy := current_energy m;
     best := best m; best_energy := best_energy m;
     temperature := PrimFloat.mul (temperature m) (coolingRate cfg);
     iteration := S (iteration m);
     generator := g |}.

(** Modelled from the spec: acceptance in the missing engine: the state is
    mutated, its energy is the energy before the move plus the delta, and the
    best snapshot is replaced on a strictly lower energy. *)
Definition move (m : machine G) (i : Z) (b : string) (dE : float) : machine G :=
  let st := <[i := b]> (current m) in
  let e := PrimFloat.add (current_energy m) dE in
  let better := PrimFloat.ltb e (best_energy m) in
  {| current := st; current_energy := e;
     best := if better then st else best m;
     best_energy := if better then e else best_energy m;
     temperature := temperature m;
     iteration := iteration m;
     generator := generator m |}.

(** Modelled from the spec: Step (4.4) of the missing engine: a farmer, a
    replacement crop among the others, the energy delta, one uniform draw,
    then cooling. *)
Definition step (m : machine G) : machine G :=
  let '(fi, g1) := draw_below (length roster) (generator m) in
  match roster !! fi with
  | Some (i, f) =>
      match current m !! i with
      | Some a =>
          let others := filter (fun c => c ≠ a) crops in
          let '(ci, g2) := draw_below (length others) g1 in
          match others !! ci with
          | Some b =>
              let dE := delta (current m) i (capacity_of f) a b in
              let '(u, g3) := next_unit g2 in
              if accepts dE u (temperature m) then cool (move m i b dE) g3
              else cool m g3
          | None => cool m g2
          end
      | None => cool m g1
      end
  | None => cool m g1
  end.

(** Modelled from the spec: Terminal (4.4) in the missing engine: the
    iteration budget is spent or the temperature is below the floor. *)
Fixpoint anneal (budget : nat) (m : machine G) : machine G :=
  match budget with
  | O => m
  | S budget' =>
      if PrimFloat.ltb (temperature m) (temperatureFloor cfg) then m
      else anneal budget' (step m)
  end.

(** Modelled from the spec: one annealing run of the missing engine, from
    Initial to Terminal. *)
Definition run : machine G := anneal (maxIterations cfg) initial.

(** Modelled from the spec: Result Builder (4.5) of the missing optimizer:
    crops in alphabetical order, each with the farmers assigned to it; the
    heatmap cell is 1 for the assigned crop and 0 otherwise. *)
Definition by_name (c1 c2 : string) : Prop := String.leb c1 c2.

(** Modelled from the spec: the crops in the order of the summary of the
    missing Result Builder. *)
Definition ordered_crops : list string := merge_sort by_name crops.

(** Modelled from the spec: the farmers that a snapshot assigns to a crop, as
    the missing Result Builder lists them. *)
Definition assigned_to (st : gmap Z string) (c : string) : list Z :=
  filter (fun i => st !! i = Some c) ids.

(** Modelled from the spec: the allocation summary of the missing Result
    Builder. *)
Definition summary (st : gmap Z string) : list (string * list Z) :=
  (fun c => (c, assigned_to st c)) <$> ordered_crops.

(** Modelled from the spec: one cell of the heatmap of the missing Result
    Builder. *)
Definition cell (st : gmap Z string) (i : Z) (c : string) : Z :=
  if bool_decide (st !! i = Some c) then 1%Z else 0%Z.

(** Modelled from the spec: the heatmap data of the missing Result Builder,
    one row per farmer. *)
Definition heatmap (st : gmap Z string) : list (Z * list (string * Z)) :=
  (fun i => (i, (fun c => (c, cell st i c)) <$> ordered_crops)) <$> ids.

(** Modelled from the spec: the entry point [optimize] of section 6, which
    the missing [logic/logic.py] would export. *)
Definition optimize : error + (list (string * list Z) * list (Z * list (string * Z))) :=
  match validate with
  | Some e => inl e
  | None => inr (summary (best run), heatmap (best run))
  end.

(** Modelled from the spec: the invariant of section 3 on the missing
    Allocation State: every farmer of the cluster holds exactly one crop, a
    crop of the crop set, and nobody else holds any. *)
Definition full_assignment (st : gmap Z string) : Prop :=
  dom st = dom farmers /\ forall i c, st !! i = Some c -> c ∈ crops.

(** What every state of the machine is expected to satisfy; [st0] is the
    initial state and [e0] its energy.  The energy recorded with the best
    snapshot is [e0] for as long as the snapshot is [st0], and strictly below
    [e0] afterwards; the energy recorded for the current state is never
    strictly below it. *)
Definition sound (st0 : gmap Z string) (e0 : float) (m : machine G) : Prop :=
  full_assignment (current m)
  /\ full_assignment (best m)
  /\ ((best m = st0 /\ best_energy m = e0)
      \/ PrimFloat.ltb (best_energy m) e0 = true)
  /\ PrimFloat.ltb (current_energy m) (best_energy m) = false.
End Engine.

(** The cluster that [/api/optimize] builds, as the engine takes it: a farmer
    given as an empty dictionary states no capacity. *)
Definition cluster : gmap Z farmer :=
  (fun _ : gmap string value => {| capacity := None; location := None; soil := None |})
    <$> App.farmers_cluster.

(** The demand map that [/api/optimize] builds, in tons. *)
Definition cluster_demand : gmap string float := float_of_Z <$> App.national_demand.

End Optimizer.

(** ** [data_pipeline.py]: the market history *)

Module Pipeline.

(** One dictionary appended to [history_data]. *)
Record history_row : Type := {
  Date : string;
  Crop : string;
  Price : float;
  Demand_Ton : float
}.

(** [20 if crop in ['Olive', 'Dates'] else (5 if crop in ['Wheat'] else 10)] *)
Definition base_price (crop : string) : Z :=
  if bool_decide (crop ∈ ["Olive"; "Dates"]) then 20
  else if bool_decide (crop ∈ ["Wheat"]) then 5 else 10.

(** The built-in [max(a, b)]: the second argument wins only when it is
    strictly greater. *)
Definition max2 (a b : float) : float := if PrimFloat.ltb a b then b else a.

(** The division [n / x] of an integer by a float, which raises on a zero
    divisor of either sign. *)
Definition float_truediv (n : Z) (x : float) : result float :=
  if PrimFloat.eqb x 0 then raise ZeroDivisionError
  else ret (PrimFloat.div (float_of_Z n) x).

(** The price of one week before the floor; [base_price] is the value computed
    for the crop by the outer loop. *)
Definition seasonal_price (crop : string) (base_price : Z)
    (season_factor price_noise : float) : float :=
  if bool_decide (crop ∈ ["Watermelon"; "Grapes"; "Tomato"]) then
    PrimFloat.add
      (PrimFloat.sub (float_of_Z base_price)
                     (PrimFloat.mul season_factor (float_of_Z 3)))
      price_noise
  else if bool_decide (crop ∈ ["Orange"; "Banana"]) then
    PrimFloat.add
      (PrimFloat.add (float_of_Z base_price)
                     (PrimFloat.mul season_factor (float_of_Z 3)))
      price_noise
  else PrimFloat.add (float_of_Z base_price) price_noise.

Section History.
Context {G : Type} `{Random G}.

(** The built-in [round(x, ndigits)] and [numpy.sin]. *)
Variable round_nd : float -> Z -> float.
Variable np_sin : float -> float.

(** The calendar: for week [i], the month and the ['%Y-%m-%d'] text of
    [datetime(2020, 1, 1) + timedelta(weeks=i)]. *)
Variable month_of_week : Z -> Z.
Variable strftime_week : Z -> string.

(** [numpy.pi] *)
Definition np_pi : float := 3.141592653589793%float.

(** The body of the inner loop for week [i]. *)
Definition week_row (crop : string) (base_price : Z) (i : Z) (g : G)
  : result history_row * G :=
  let month := month_of_week i in
  let season_factor :=
    np_sin (PrimFloat.mul
              (PrimFloat.mul (PrimFloat.div (float_of_Z month) (float_of_Z 12))
                             (float_of_Z 2))
              np_pi) in
  let '(price_noise, g1) := uniform (float_of_Z (-2)) (float_of_Z 2) g in
  let price := seasonal_price crop base_price season_factor price_noise in
  let price := max2 1.5 price in
  match float_truediv 5000 price with
  | inl e => (raise e, g1)
  | inr quotient =>
      let '(demand_noise, g2) := uniform (float_of_Z (-100)) (float_of_Z 100) g1 in
      let demand := PrimFloat.add quotient demand_noise in
      (ret {| Date := strftime_week i; Crop := crop;
              Price := round_nd price 2; Demand_Ton := round_nd demand 2 |}, g2)
  end.

(** [for i in range(weeks)], appending to [history_data]. *)
Fixpoint weeks_loop (crop : string) (base_price : Z) (weeks : list Z)
    (history_data : list history_row) (g : G) : result (list history_row) * G :=
  match weeks with
  | [] => (ret history_data, g)
  | i :: rest =>
      let '(r, g') := week_row crop base_price i g in
      match r with
      | inl e => (raise e, g')
      | inr row => weeks_loop crop base_price rest (history_data ++ [row]) g'
      end
  end.

(** [for crop in crops_list]. *)
Fixpoint crops_loop (crops_list : list string) (weeks : Z)
    (history_data : list history_row) (g : G) : result (list history_row) * G :=
  match crops_list with
  | [] => (ret history_data, g)
  | crop :: rest =>
      let '(r, g') :=
        weeks_loop crop (base_price crop) (seqZ 0 weeks) history_data g in
      match r with
      | inl e => (raise e, g')
      | inr history_data' => crops_loop rest weeks history_data' g'
      end
  end.

(** [generate_market_data], up to the rows handed to [pd.DataFrame]. *)
Definition generate_market_data (crops_list : list string) (g : G)
  : result (list history_row) * G :=
  let weeks := 52 * 4 in
  crops_loop crops_list weeks [] g.
End History.

End Pipeline.

(** ** Sample collaborators, on which the models are run *)

Module Sample.
Import App Optimizer.

(** A small congruential generator standing for the [random] module. *)
Definition lcg_next (g : Z) : Z := (1103515245 * g + 12345) mod 2147483648.

Definition lcg_random (g : Z) : float * Z :=
  (PrimFloat.div (float_of_Z (g mod 1000)) 1000%float, lcg_next g).

Definition lcg_randbelow (n g : Z) : Z * Z := (g mod n, lcg_next g).

#[export] Instance lcg : Random Z := {|
  random := lcg_random;
  randbelow := lcg_randbelow;
  randbelow_range := fun n g Hn => Z.mod_pos_bound g n Hn
|}.

(** Rounding that keeps its argument, enough to run the handlers. *)
Definition keep (x : float) (ndigits : Z) : float := x.

(** An optimizer that leaves the generator alone and reports one crop. *)
Definition sample_optimizer (farmers : gmap Z (gmap string value))
    (demand : gmap string Z) (g : Z) : result (list string * unit) * Z :=
  (inr (["Tomato"], tt), g).

Definition sample_truth (l : list string) : bool :=
  match l with [] => false | _ :: _ => true end.

Definition sample_item0 (l : list string) : result value :=
  match l with [] => raise IndexError | c :: _ => ret (VStr c) end.

(** An economist without demand: every adjusted demand is 0, every divisor 1. *)
Definition sample_demand (crop : string) : result float := inr 0%float.

Definition sample_quotient (a b : Z) : float :=
  PrimFloat.div (float_of_Z a) (float_of_Z b).

(** A scorer that finds every crop equally suitable. *)
Definition sample_scorer (location : value) (crop : string) (n p k : Z) (ph : float)
    (climate : gmap string value) : result float :=
  inr 80%float.

Definition sample_parse (s : string) : result float := raise ValueError.

Definition sample_request : option (gmap string value) :=
  Some (<["location" := VStr "gaza"]> (<["soil" := VStr "Peat"]> ∅)).

(** A congruential generator for the engine, a stand-in for [exp] on
    negative exponents, and a scorer that finds every crop half suitable. *)
#[export] Instance sample_generator : Generator Z := {|
  seeded := lcg_next;
  next_index := fun g => (Z.to_nat (g / 65536), lcg_next g);
  next_unit := fun g =>
    (PrimFloat.div (float_of_Z ((g / 65536) mod 1000)) 1000%float, lcg_next g)
|}.

Definition sample_exp (x : float) : float :=
  PrimFloat.div 1 (PrimFloat.sub 1 x).

Definition sample_score (i : Z) (c : string) : option float := Some 50%float.

Definition sample_config (rate : float) (budget : nat) : config :=
  {| seed := 42; maxIterations := budget;
     initialTemperature := 10%float; coolingRate := rate;
     infeasibilityWeight := 0%float; temperatureFloor := 0.001%float |}.



(** The demand of the balanced scenario of the design document. *)
Definition balanced_demand : gmap string float :=
  <["Tomato" := 5%float]> (<["Wheat" := 3%float]> (<["Olive" := 2%float]> ∅)).

End Sample.

(** * Properties *)

(** ** Floating-point comparisons *)

Module FloatFacts.
Import FloatOrder.

Lemma SFcompare_rank (f1 f2 : spec_float) :
  f1 <> S754_nan -> f2 <> S754_nan ->
  SFcompare f1 f2 = Some (rank_compare (rank f1) (rank f2)).
Proof.
  intros H1 H2.
  destruct f1 as [s1|s1| |s1 m1 e1], f2 as [s2|s2| |s2 m2 e2]; try congruence;
    try destruct s1; try destruct s2; try reflexivity.
  unfold rank, rank_compare, SFcompare. cbn [fst snd].
  change (-1 ?= -1) with Eq. cbn iota.
  rewrite Z.compare_opp, (Z.compare_antisym e1 e2).
  destruct (e1 ?= e2); cbn; reflexivity.
Qed.

Lemma rank_compare_Lt_trans a b c :
  rank_compare a b = Lt -> rank_compare b c = Lt -> rank_compare a c = Lt.
Proof.
  destruct a as [[a1 a2] a3], b as [[b1 b2] b3], c as [[c1 c2] c3].
  unfold rank_compare; cbn [fst snd].
  destruct (Z.compare_spec a1 b1), (Z.compare_spec b1 c1), (Z.compare_spec a1 c1);
    try lia; try discriminate; try reflexivity;
  destruct (Z.compare_spec a2 b2), (Z.compare_spec b2 c2), (Z.compare_spec a2 c2);
    try lia; try discriminate; try reflexivity;
  destruct (Z.compare_spec a3 b3), (Z.compare_spec b3 c3), (Z.compare_spec a3 c3);
    try lia; try discriminate; try reflexivity.
Qed.

Lemma rank_compare_antisym a b : rank_compare b a = CompOpp (rank_compare a b).
Proof.
  destruct a as [[a1 a2] a3], b as [[b1 b2] b3].
  unfold rank_compare; cbn [fst snd].
  rewrite (Z.compare_antisym a1 b1), (Z.compare_antisym a2 b2), (Z.compare_antisym a3 b3).
  destruct (a1 ?= b1), (a2 ?= b2), (a3 ?= b3); reflexivity.
Qed.

Lemma rank_compare_le_trans a b c :
  rank_compare a b <> Gt -> rank_compare b c <> Gt -> rank_compare a c <> Gt.
Proof.
  destruct a as [[a1 a2] a3], b as [[b1 b2] b3], c as [[c1 c2] c3].
  unfold rank_compare; cbn [fst snd].
  destruct (Z.compare_spec a1 b1), (Z.compare_spec b1 c1), (Z.compare_spec a1 c1);
    try lia; try congruence;
  destruct (Z.compare_spec a2 b2), (Z.compare_spec b2 c2), (Z.compare_spec a2 c2);
    try lia; try congruence;
  destruct (Z.compare_spec a3 b3), (Z.compare_spec b3 c3), (Z.compare_spec a3 c3);
    try lia; try congruence.
Qed.

Lemma is_nan_false (x : float) :
  PrimFloat.is_nan x = false <-> Prim2SF x <> S754_nan.
Proof.
  unfold PrimFloat.is_nan. rewrite FloatAxioms.eqb_spec. unfold SFeqb.
  destruct (Prim2SF x) as [s|s| |s m e] eqn:Hx.
  - cbn. split; [discriminate|reflexivity].
  - destruct s; cbn; (split; [discriminate|reflexivity]).
  - cbn. split; [discriminate|congruence].
  - rewrite SFcompare_rank by discriminate.
    assert (Hrefl : rank_compare (rank (S754_finite s m e)) (rank (S754_finite s m e)) = Eq).
    { unfold rank_compare. by rewrite !Z.compare_refl. }
    rewrite Hrefl. cbn. split; [discriminate|reflexivity].
Qed.

Lemma ltb_rank (x y : float) :
  PrimFloat.ltb x y = true <->
  Prim2SF x <> S754_nan /\ Prim2SF y <> S754_nan
  /\ rank_compare (rank (Prim2SF x)) (rank (Prim2SF y)) = Lt.
Proof.
  rewrite FloatAxioms.ltb_spec. unfold SFltb.
  destruct (Prim2SF x) as [s|s| |s m e] eqn:Hx;
    [| |cbn; split; [discriminate|intros (? & _); congruence]|];
    (destruct (Prim2SF y) as [s'|s'| |s' m' e'] eqn:Hy;
     [| |assert (Hnone : forall f, SFcompare f S754_nan = None) by (by intros []);
         rewrite Hnone; split; [discriminate|intros (_ & ? & _); congruence]|]);
    rewrite SFcompare_rank by discriminate;
    destruct (rank_compare _ _); (split; [intros; repeat split; congruence|]);
    intros (_ & _ & ?); congruence.
Qed.

Lemma leb_rank (x y : float) :
  PrimFloat.leb x y = true <->
  Prim2SF x <> S754_nan /\ Prim2SF y <> S754_nan
  /\ rank_compare (rank (Prim2SF x)) (rank (Prim2SF y)) <> Gt.
Proof.
  rewrite FloatAxioms.leb_spec. unfold SFleb.
  destruct (Prim2SF x) as [s|s| |s m e] eqn:Hx;
    [| |cbn; split; [discriminate|intros (? & _); congruence]|];
    (destruct (Prim2SF y) as [s'|s'| |s' m' e'] eqn:Hy;
     [| |assert (Hnone : forall f, SFcompare f S754_nan = None) by (by intros []);
         rewrite Hnone; split; [discriminate|intros (_ & ? & _); congruence]|]);
    rewrite SFcompare_rank by discriminate;
    destruct (rank_compare _ _); (split; [intros; repeat split; congruence|]);
    intros (_ & _ & ?); congruence.
Qed.

Lemma eqb_rank (x y : float) :
  PrimFloat.eqb x y = true <->
  Prim2SF x <> S754_nan /\ Prim2SF y <> S754_nan
  /\ rank_compare (rank (Prim2SF x)) (rank (Prim2SF y)) = Eq.
Proof.
  rewrite FloatAxioms.eqb_spec. unfold SFeqb.
  destruct (Prim2SF x) as [s|s| |s m e] eqn:Hx;
    [| |cbn; split; [discriminate|intros (? & _); congruence]|];
    (destruct (Prim2SF y) as [s'|s'| |s' m' e'] eqn:Hy;
     [| |assert (Hnone : forall f, SFcompare f S754_nan = None) by (by intros []);
         rewrite Hnone; split; [discriminate|intros (_ & ? & _); congruence]|]);
    rewrite SFcompare_rank by discriminate;
    destruct (rank_compare _ _); (split; [intros; repeat split; congruence|]);
    intros (_ & _ & ?); congruence.
Qed.

Lemma rank_compare_Eq a b : rank_compare a b = Eq -> a = b.
Proof.
  destruct a as [[a1 a2] a3], b as [[b1 b2] b3].
  unfold rank_compare; cbn [fst snd].
  destruct (Z.compare_spec a1 b1); try discriminate.
  destruct (Z.compare_spec a2 b2); try discriminate.
  destruct (Z.compare_spec a3 b3); try discriminate.
  intros _. congruence.
Qed.

(** Two floats equal to a third are not strictly ordered. *)
Lemma eqb_not_ltb (x y v : float) :
  PrimFloat.eqb x v = true -> PrimFloat.eqb y v = true -> PrimFloat.ltb x y = false.
Proof.
  rewrite !eqb_rank. intros (_ & _ & Hx) (_ & _ & Hy).
  apply rank_compare_Eq in Hx, Hy.
  destruct (PrimFloat.ltb x y) eqn:Hlt; [|reflexivity].
  apply ltb_rank in Hlt as (_ & _ & Hlt). rewrite Hx, Hy in Hlt.
  assert (Hrefl : rank_compare (rank (Prim2SF v)) (rank (Prim2SF v)) = Eq).
  { unfold rank_compare. by rewrite !Z.compare_refl. }
  congruence.
Qed.

(** [x < y] excludes [y < x], NaN included. *)
Lemma ltb_asym (x y : float) :
  PrimFloat.ltb x y = true -> PrimFloat.ltb y x = false.
Proof.
  intros Hxy. apply ltb_rank in Hxy as (_ & _ & Hxy).
  destruct (PrimFloat.ltb y x) eqn:Hyx; [|reflexivity].
  apply ltb_rank in Hyx as (_ & _ & Hyx).
  rewrite rank_compare_antisym, Hxy in Hyx. discriminate.
Qed.

Lemma ltb_irrefl (x : float) : PrimFloat.ltb x x = false.
Proof.
  destruct (PrimFloat.ltb x x) eqn:Hlt; [|reflexivity].
  by rewrite (ltb_asym x x Hlt) in Hlt.
Qed.

Lemma ltb_leb (x y : float) :
  PrimFloat.ltb x y = true -> PrimFloat.leb x y = true.
Proof.
  rewrite ltb_rank, leb_rank. intros (? & ? & Hlt). rewrite Hlt. by repeat split.
Qed.

Lemma ltb_trans (x y z : float) :
  PrimFloat.ltb x y = true -> PrimFloat.ltb y z = true -> PrimFloat.ltb x z = true.
Proof.
  rewrite !ltb_rank. intros (? & ? & Hxy) (? & ? & Hyz).
  repeat split; try done. by eapply rank_compare_Lt_trans.
Qed.

Lemma leb_trans (x y z : float) :
  PrimFloat.leb x y = true -> PrimFloat.leb y z = true -> PrimFloat.leb x z = true.
Proof.
  rewrite !leb_rank. intros (? & ? & Hxy) (? & ? & Hyz).
  repeat split; try done. by eapply rank_compare_le_trans.
Qed.

Lemma leb_ltb_trans (x y z : float) :
  PrimFloat.leb x y = true -> PrimFloat.ltb y z = true -> PrimFloat.ltb x z = true.
Proof.
  rewrite !ltb_rank, leb_rank. intros (? & ? & Hxy) (? & ? & Hyz).
  repeat split; try done.
  destruct (rank_compare (rank (Prim2SF x)) (rank (Prim2SF y))) eqn:Hc; [| |done].
  - revert Hc Hyz. generalize (rank (Prim2SF x)) (rank (Prim2SF y)) (rank (Prim2SF z)).
    intros [[a1 a2] a3] [[b1 b2] b3] [[c1 c2] c3]. unfold rank_compare; cbn [fst snd].
    destruct (Z.compare_spec a1 b1); try discriminate.
    destruct (Z.compare_spec a2 b2); try discriminate.
    destruct (Z.compare_spec a3 b3); try discriminate. by subst.
  - by eapply rank_compare_Lt_trans.
Qed.

(** Two floats that are numbers are comparable. *)
Lemma not_ltb_leb (x y : float) :
  PrimFloat.is_nan x = false -> PrimFloat.is_nan y = false ->
  PrimFloat.ltb x y = false -> PrimFloat.leb y x = true.
Proof.
  rewrite !is_nan_false, leb_rank. intros Hx Hy Hlt.
  repeat split; try done. intros Hgt.
  rewrite rank_compare_antisym in Hgt.
  assert (PrimFloat.ltb x y = true); [|congruence].
  apply ltb_rank. repeat split; try done.
  by destruct (rank_compare (rank (Prim2SF x)) (rank (Prim2SF y))).
Qed.


(** A float that 1.5 does not exceed is not a zero. *)
Lemma above_floor_nonzero (x : float) :
  PrimFloat.leb 1.5 x = true -> PrimFloat.eqb x 0 = false.
Proof.
  rewrite FloatAxioms.leb_spec, FloatAxioms.eqb_spec. unfold SFleb, SFeqb.
  change (Prim2SF 1.5) with (S754_finite false 6755399441055744 (-52)).
  change (Prim2SF 0) with (S754_zero false).
  destruct (Prim2SF x) as [s|s| |s m e]; cbn; try destruct s; try discriminate;
    reflexivity.
Qed.

End FloatFacts.

(** ** The climate service *)

Module ClimateFacts.
Import Climate Sample.

Lemma jenin_profile :
  climate_profiles !! "Jenin"
  = Some {| base_temp := 25; rain_factor := 1.2; type := "Mediterranean" |}.
Proof. reflexivity. Qed.

(** A city outside the seven districts has no profile. *)
Lemma unknown_city (city : string) :
  city ∉ districts -> climate_profiles !! city = None.
Proof.
  unfold districts, climate_profiles. intros Hout.
  repeat (apply not_elem_of_cons in Hout as [? Hout];
          rewrite lookup_insert_ne by congruence).
  by rewrite lookup_empty.
Qed.

Section Service.
Context {G : Type} `{Random G}.
Variable capitalize : string -> string.
Variable round_nd : float -> Z -> float.

(** The six entries of a projection. *)
Lemma project_entries city p month g :
  let d := (project round_nd city p month g).1 in
  d !! "location" = Some (VStr city)
  /\ (exists s, d !! "season_name" = Some (VStr s))
  /\ (exists x, d !! "avg_temp_c" = Some (VFloat x))
  /\ (exists x, d !! "rainfall_mm" = Some (VFloat x))
  /\ d !! "climate_type" = Some (VStr (type p))
  /\ (exists s, d !! "risk_factor" = Some (VStr s)).
Proof.
  unfold project.
  destruct (_get_season_modifiers month) as [[season_name temp_mod] rain_mod].
  destruct (uniform _ _ g) as [u g']. cbn.
  repeat split; eauto.
Qed.

Lemma get_seasonal_forecast_project location month g :
  get_seasonal_forecast capitalize round_nd location month g
  = let profile :=
      default {| base_temp := 25; rain_factor := 1.2; type := "Mediterranean" |}
              (climate_profiles !! capitalize location) in
    let r := project round_nd (capitalize location) profile month g in
    (inr r.1, r.2).
Proof.
  unfold get_seasonal_forecast. rewrite jenin_profile. cbn zeta.
  destruct (project _ _ _ _ _) as [d g']. reflexivity.
Qed.

(** C7.  For every location string [get_seasonal_forecast] returns a
    dictionary, and that dictionary holds the five fields of the climate
    boundary: the season name (a string), the average temperature and the
    rainfall (floats), the climate type and the risk factor (strings). *)
Theorem get_seasonal_forecast_fields (location : string) (month : Z) (g : G) :
  exists (d : gmap string value) (g' : G),
    get_seasonal_forecast capitalize round_nd location month g = (inr d, g')
    /\ (exists s, d !! "season_name" = Some (VStr s))
    /\ (exists x, d !! "avg_temp_c" = Some (VFloat x))
    /\ (exists x, d !! "rainfall_mm" = Some (VFloat x))
    /\ (exists s, d !! "climate_type" = Some (VStr s))
    /\ (exists s, d !! "risk_factor" = Some (VStr s)).
Proof.
  rewrite get_seasonal_forecast_project. cbn zeta.
  set (profile := default _ _).
  destruct (project_entries (capitalize location) profile month g)
    as (_ & Hs & Ht & Hr & Hc & Hk).
  do 2 eexists. split; [reflexivity|]. eauto 10.
Qed.

(** C8.  When the capitalized location is none of the seven district keys,
    [get_seasonal_forecast] does not raise: it returns the projection built
    from the Jenin profile (base temperature 25, rain factor 1.2,
    Mediterranean), under the capitalized name that was asked for. *)
Theorem get_seasonal_forecast_fallback (location : string) (month : Z) (g : G) :
  capitalize location ∉ districts ->
  let jenin := {| base_temp := 25; rain_factor := 1.2; type := "Mediterranean" |} in
  let r := project round_nd (capitalize location) jenin month g in
  get_seasonal_forecast capitalize round_nd location month g = (inr r.1, r.2)
  /\ r.1 !! "climate_type" = Some (VStr "Mediterranean")
  /\ r.1 !! "location" = Some (VStr (capitalize location)).
Proof.
  intros Hout jenin r.
  rewrite get_seasonal_forecast_project, (unknown_city _ Hout). cbn.
  fold jenin. fold r.
  destruct (project_entries (capitalize location) jenin month g)
    as (Hl & _ & _ & _ & Hc & _).
  auto.
Qed.
End Service.

(** Jericho in July: 32 + 8 degrees, no rain, heat stress. *)
Example forecast_jericho_july :
  match (get_seasonal_forecast capitalize_ascii keep "jERICHO" 7 12345).1 with
  | inr d =>
      d !! "location" = Some (VStr "Jericho")
      /\ d !! "season_name" = Some (VStr "Summer")
      /\ d !! "avg_temp_c" = Some (VFloat 40)
      /\ d !! "rainfall_mm" = Some (VFloat 0)
      /\ d !! "climate_type" = Some (VStr "Arid")
      /\ d !! "risk_factor" = Some (VStr "High Heat Stress")
  | inl _ => False
  end.
Proof. vm_compute. repeat split; reflexivity. Qed.

(** A spelling that only the Unicode case mappings bring to a district: with
    the Kelvin sign, which [str.capitalize] lower-cases to the letter k, the
    service answers for Tulkarm, not with the fallback. *)
Example forecast_kelvin_sign :
  let capitalize s :=
    if String.eqb s "TulKarm" then "Tulkarm" else capitalize_ascii s in
  match (get_seasonal_forecast capitalize keep "TulKarm" 1 7).1 with
  | inr d =>
      d !! "location" = Some (VStr "Tulkarm")
      /\ d !! "climate_type" = Some (VStr "Coastal Plain")
  | inl _ => False
  end.
Proof. vm_compute. repeat split; reflexivity. Qed.

Lemma get_seasonal_forecast_fallback_witness :
  (capitalize_ascii "london" ∉ districts)
  /\ (get_seasonal_forecast capitalize_ascii Sample.keep "london" 1 7).1
     = inr ((project Sample.keep "London"
               {| base_temp := 25; rain_factor := 1.2; type := "Mediterranean" |} 1 7).1).
Proof.
  assert (Hout : capitalize_ascii "london" ∉ districts).
  { apply (bool_decide_unpack _). vm_compute. exact I. }
  split; [exact Hout|].
  destruct (get_seasonal_forecast_fallback capitalize_ascii Sample.keep "london" 1 7 Hout)
    as (Heq & _).
  rewrite Heq. reflexivity.
Defined.

End ClimateFacts.

(** ** The handlers of [app.py] *)

Module AppFacts.
Import App Sample.

(** *** Runtime lemmas *)

Lemma mapM_total {A B} (f : A -> result B) (l : list A) :
  (forall a, a ∈ l -> exists b, f a = inr b) ->
  exists bs, mapM f l = inr bs /\ length bs = length l.
Proof.
  induction l as [|a l IH]; intros Hall; cbn.
  - exists []. split; reflexivity.
  - destruct (Hall a) as [b Hb]; [left|].
    destruct IH as (bs & Hbs & Hlen).
    { intros a' Ha'. apply Hall. by right. }
    rewrite Hb, Hbs. cbn. exists (b :: bs). cbn. by rewrite Hlen.
Qed.

Lemma mapM_inr {A B} (f : A -> result B) (l : list A) (bs : list B) :
  mapM f l = inr bs -> Forall2 (fun a b => f a = inr b) l bs.
Proof.
  revert bs. induction l as [|a l IH]; intros bs; cbn.
  - intros [= <-]. constructor.
  - destruct (f a) as [e|b] eqn:Hb; cbn; [discriminate|].
    destruct (mapM f l) as [e|bs'] eqn:Hbs; cbn; [discriminate|].
    intros [= <-]. constructor; [exact Hb|]. by apply IH.
Qed.

Lemma mapM_inl {A B} (f : A -> result B) (l : list A) (e : exn) :
  mapM f l = inl e -> exists a, a ∈ l /\ f a = inl e.
Proof.
  induction l as [|a l IH]; cbn; [discriminate|].
  destruct (f a) as [e'|b] eqn:Hb; cbn.
  - intros [= <-]. exists a. split; [left|exact Hb].
  - destruct (mapM f l) as [e'|bs] eqn:Hbs; cbn; [|discriminate].
    intros [= <-]. destruct IH as (a' & Hin & Ha'); [reflexivity|].
    exists a'. split; [by right|exact Ha'].
Qed.

Lemma list_item_in_range {A} (l : list A) (j : Z) :
  0 <= j < Z.of_nat (length l) -> exists a, list_item l j = inr a.
Proof.
  intros Hj. unfold list_item.
  destruct (Z.ltb_spec j 0) as [|_]; [lia|]. cbn zeta.
  destruct (Z.ltb_spec j 0) as [|_]; [lia|].
  destruct (l !! Z.to_nat j) as [a|] eqn:Hl; [by exists a|].
  apply lookup_ge_None in Hl. lia.
Qed.

Lemma randint_draw {G} `{Random G} (g : G) :
  randint 94 99 g = (inr (94 + (randbelow 6 g).1), (randbelow 6 g).2).
Proof.
  unfold randint, randrange.
  change (99 + 1 - 94) with 6. change (0 <? 6) with true. cbn iota.
  destruct (randbelow 6 g) as [k g']. reflexivity.
Qed.

(** *** [/api/optimize] *)

Section Optimize.
Context {G : Type} `{Random G} {allocation heatmap : Type}.
Variable truth : allocation -> bool.
Variable item0 : allocation -> result value.

Let optimizer : Type :=
  gmap Z (gmap string value) -> gmap string Z -> G ->
  result (allocation * heatmap) * G.

(** What a successful answer of the handler is made of. *)
Lemma optimize_ok (run : optimizer) (g g' : G) (body : optimize_body heatmap) :
  optimize truth item0 run g = (Ok body, g') ->
  let post := (run farmers_cluster national_demand g).2 in
  exists alloc heat,
    (run farmers_cluster national_demand g).1 = inr (alloc, heat)
    /\ heatmap_of body = heat
    /\ confidence (assignment_of body) = str_of_Z (94 + (randbelow 6 post).1) ++ "%".
Proof.
  unfold optimize.
  destruct (run farmers_cluster national_demand g) as [[e|[alloc heat]] g1];
    [discriminate|].
  rewrite randint_draw. cbn.
  destruct (if truth alloc then item0 alloc else ret (VStr "None")) as [e|first];
    cbn; [discriminate|].
  intros [= <- _]. exists alloc, heat. cbn. auto.
Qed.

(** C1.  The confidence of every answer of [/api/optimize] is the integer that
    [random.randint(94, 99)] draws from the generator as the optimizer left it:
    it lies between 94 and 99, each of the six values is the image of exactly one
    outcome of the uniform primitive [_randbelow(6)], and two optimizers that
    leave the generator in the same state yield the same confidence whatever
    allocation and heatmap they return: nothing of the search enters it. *)
Theorem optimize_confidence (run : optimizer) (g : G) :
  let post := (run farmers_cluster national_demand g).2 in
  (forall body g',
      optimize truth item0 run g = (Ok body, g') ->
      exists v, (randint 94 99 post).1 = inr v
                /\ 94 <= v <= 99
                /\ confidence (assignment_of body) = str_of_Z v ++ "%")
  /\ (forall v, (randint 94 99 post).1 = inr v <-> (randbelow 6 post).1 = v - 94)
  /\ (forall (run' : optimizer) (g0 g1 g2 : G) body body',
         (run' farmers_cluster national_demand g0).2 = post ->
         optimize truth item0 run g = (Ok body, g1) ->
         optimize truth item0 run' g0 = (Ok body', g2) ->
         confidence (assignment_of body) = confidence (assignment_of body')).
Proof.
  intros post. split; [|split].
  - intros body g' Hok.
    destruct (optimize_ok _ _ _ _ Hok) as (alloc & heat & _ & _ & Hconf).
    exists (94 + (randbelow 6 post).1). rewrite randint_draw. cbn.
    split; [reflexivity|]. split; [|exact Hconf].
    pose proof (randbelow_range 6 post). lia.
  - intros v. rewrite randint_draw. cbn. split.
    + intros [= <-]. lia.
    + intros ->. f_equal. lia.
  - intros run' g0 g1 g2 body body' Hpost Hok Hok'.
    destruct (optimize_ok _ _ _ _ Hok) as (? & ? & _ & _ & ->).
    destruct (optimize_ok _ _ _ _ Hok') as (? & ? & _ & _ & ->).
    fold post. by rewrite Hpost.
Qed.
End Optimize.

Example optimize_sample :
  (optimize sample_truth sample_item0 sample_optimizer 2024).1
  = Ok {| assignment_of := {| crop := VStr "Tomato"; confidence := "96%" |};
          heatmap_of := tt |}.
Proof. reflexivity. Qed.

(** *** [/api/market] *)

Lemma int_of_float_raises (x : float) (e : exn) :
  int_of_float x = inl e -> e = ValueError \/ e = OverflowError.
Proof.
  unfold int_of_float.
  destruct (Prim2SF x); cbn; intros [= <-]; auto.
Qed.

Section Market.
Context {G : Type} `{Random G}.
Variable round_nd : float -> Z -> float.
Variable long_true_divide : Z -> Z -> float.
Variable get_national_demand : string -> result float.

Lemma divisor_positive (adjusted_demand : Z) : 1 <= divisor adjusted_demand.
Proof. unfold divisor. destruct (Z.ltb_spec 0 adjusted_demand); lia. Qed.

Lemma price_of_defined (adjusted_demand : Z) :
  price_of round_nd long_true_divide adjusted_demand
  = inr (round_nd (long_true_divide 4000 (divisor adjusted_demand)) 2).
Proof.
  unfold price_of, int_truediv.
  pose proof (divisor_positive adjusted_demand).
  destruct (Z.eqb_spec (divisor adjusted_demand) 0); [lia|]. reflexivity.
Qed.

Lemma market_turn_outcome (base_demand : float) (g : G) :
  match (market_turn round_nd long_true_divide base_demand g).1 with
  | inr (adjusted_demand, price) =>
      price = round_nd (long_true_divide 4000 (divisor adjusted_demand)) 2
  | inl e => e = ValueError \/ e = OverflowError
  end.
Proof.
  unfold market_turn. destruct (uniform _ _ g) as [volatility g']. cbn.
  destruct (int_of_float _) as [e|adjusted_demand] eqn:Hint; cbn.
  - by apply int_of_float_raises in Hint.
  - rewrite price_of_defined. reflexivity.
Qed.

Lemma market_loop_outcome (turns : nat) (base_demand : float)
    (prices : list float) (demands : list Z) (g : G) :
  match (market_loop round_nd long_true_divide turns base_demand prices demands g).1 with
  | inr (prices', demands') =>
      length prices' = (length prices + turns)%nat
      /\ length demands' = (length demands + turns)%nat
  | inl e => e = ValueError \/ e = OverflowError
  end.
Proof.
  revert prices demands g.
  induction turns as [|turns IH]; intros prices demands g; cbn.
  - lia.
  - pose proof (market_turn_outcome base_demand g) as Hturn.
    destruct (market_turn _ _ _ g) as [[e|[adjusted_demand price]] g']; cbn in *.
    + exact Hturn.
    + specialize (IH (prices ++ [price])%list (demands ++ [adjusted_demand])%list g').
      destruct (market_loop _ _ _ _ _ _ g') as [[e|[prices' demands']] g'']; cbn in *.
      * exact IH.
      * rewrite !length_app in IH. cbn in IH. lia.
Qed.

Lemma get_next_6_months_total (month : Z) :
  exists dates, get_next_6_months month = inr dates /\ length dates = 6%nat.
Proof.
  unfold get_next_6_months.
  destruct (mapM_total
              (fun i => list_item months_names ((month - 1 + i) mod 12)) (seqZ 0 6))
    as (dates & Hdates & Hlen).
  - intros i _. apply list_item_in_range.
    change (Z.of_nat (length months_names)) with 12.
    apply Z.mod_pos_bound. lia.
  - exists dates. split; [exact Hdates|]. rewrite Hlen. reflexivity.
Qed.

(** C9.  The divisor of the price formula is at least 1, and it is 1 whenever the
    adjusted demand is zero or negative; hence the division [4000 / divisor]
    never raises [ZeroDivisionError].  Whatever the generator draws, [market]
    answers with six prices and six demands, unless the economist raised or
    [int()] refused a NaN or an infinity. *)
Theorem market_division_safe :
  (forall adjusted_demand,
      1 <= divisor adjusted_demand
      /\ (adjusted_demand <= 0 -> divisor adjusted_demand = 1)
      /\ int_truediv long_true_divide 4000 (divisor adjusted_demand)
         = inr (long_true_divide 4000 (divisor adjusted_demand)))
  /\ (forall month (g : G),
        match (market round_nd long_true_divide get_national_demand month g).1 with
        | Ok body =>
            length (prices body) = 6%nat /\ length (demand body) = 6%nat
        | InternalServerError e =>
            get_national_demand "Tomato" = inl e
            \/ e = ValueError \/ e = OverflowError
        end).
Proof.
  split.
  - intros adjusted_demand. pose proof (divisor_positive adjusted_demand) as Hpos.
    split; [exact Hpos|]. split.
    + unfold divisor. destruct (Z.ltb_spec 0 adjusted_demand); lia.
    + unfold int_truediv.
      destruct (Z.eqb_spec (divisor adjusted_demand) 0); [lia|]. reflexivity.
  - intros month g. unfold market.
    destruct (get_next_6_months_total month) as (dates & -> & _).
    cbn -[market_loop].
    destruct (get_national_demand "Tomato") as [e|base_demand];
      cbn -[market_loop]; [by left|].
    pose proof (market_loop_outcome 6 base_demand [] [] g) as Hloop.
    destruct (market_loop _ _ _ _ _ _ g) as [[e|[prices' demands']] g']; cbn in *.
    + by right.
    + exact Hloop.
Qed.
End Market.

Example market_sample :
  (market keep sample_quotient sample_demand 11 2024).1
  = Ok {| months := ["Nov"; "Dec"; "Jan"; "Feb"; "Mar"; "Apr"];
          prices := [4000; 4000; 4000; 4000; 4000; 4000]%float;
          demand := [0; 0; 0; 0; 0; 0] |}.
Proof. reflexivity. Qed.

(** *** [/api/analyze] *)

Lemma soil_fallback (s : string) :
  s ∉ ["Clay"; "Loamy"; "Sandy"] ->
  default {| n := 50; p := 50; k := 50 |} (SOIL_NUTRIENT_MAP !! s)
  = {| n := 50; p := 50; k := 50 |}.
Proof.
  unfold SOIL_NUTRIENT_MAP. intros Hout.
  repeat (apply not_elem_of_cons in Hout as [? Hout];
          rewrite lookup_insert_ne by congruence).
  destruct (decide (s = "Default")) as [->|Hne].
  - by rewrite lookup_insert_eq.
  - rewrite lookup_insert_ne by congruence. by rewrite lookup_empty.
Qed.

Lemma insert_by_score_Permutation (x : crop_entry) (l : list crop_entry) :
  insert_by_score x l ≡ₚ x :: l.
Proof.
  induction l as [|y l IH]; cbn; [reflexivity|].
  destruct (PrimFloat.ltb (score x) (score y)); [|reflexivity].
  rewrite IH. apply Permutation_swap.
Qed.

Lemma sorted_by_score_Permutation (l : list crop_entry) : sorted_by_score l ≡ₚ l.
Proof.
  induction l as [|x l IH]; cbn; [reflexivity|].
  rewrite insert_by_score_Permutation. by rewrite IH.
Qed.

Section Analyze.
Context {G : Type} `{Random G}.
Variable round_nd : float -> Z -> float.
Variable float_of_str : string -> result float.
Variable predict_feasibility :
  value -> string -> Z -> Z -> Z -> float -> gmap string value -> result float.
Variable climate_forecast : value -> Z -> G -> result (gmap string value) * G.

Lemma score_crop_inr location chem ph climate crop entry :
  score_crop round_nd predict_feasibility location chem ph climate crop = inr entry ->
  name entry = crop
  /\ exists sc, predict_feasibility location crop (n chem) (p chem) (k chem) ph climate
                = inr sc
                /\ score entry = round_nd sc 2.
Proof.
  unfold score_crop.
  destruct (predict_feasibility _ _ _ _ _ _ _) as [e|sc]; cbn; [discriminate|].
  intros [= <-]. cbn. eauto.
Qed.

Lemma score_crop_inl location chem ph climate crop e :
  score_crop round_nd predict_feasibility location chem ph climate crop = inl e ->
  predict_feasibility location crop (n chem) (p chem) (k chem) ph climate = inl e.
Proof.
  unfold score_crop.
  destruct (predict_feasibility _ _ _ _ _ _ _) as [e'|sc]; cbn; unfold ret; congruence.
Qed.

(** C10.  A soil string other than Clay, Loamy and Sandy selects the Default
    profile (50, 50, 50) and never makes [analyze] fail.  The answer lists the
    seven crops of [CROPS_LIST], each scored with the Default nutrients; a 500
    answer comes from [float(ph)], from the forecast, or from the scorer on one
    of the seven crops with the Default nutrients, and from nothing else:
    whenever these three return, [analyze] answers 200. *)
Theorem analyze_unknown_soil (json : option (gmap string value)) (month : Z) (g : G)
    (s : string) :
  default ∅ json !! "soil" = Some (VStr s) ->
  s ∉ ["Clay"; "Loamy"; "Sandy"] ->
  let data := default ∅ json in
  let location := default (VStr "Jenin") (data !! "location") in
  let ph_given := default (VFloat 6.5) (data !! "ph") in
  dict_get SOIL_NUTRIENT_MAP (VStr s) {| n := 50; p := 50; k := 50 |}
  = inr {| n := 50; p := 50; k := 50 |}
  /\ match (analyze round_nd float_of_str predict_feasibility climate_forecast
              json month g).1 with
     | Ok body =>
         length (crops body) = 7%nat
         /\ name <$> crops body ≡ₚ CROPS_LIST
         /\ forall entry, entry ∈ crops body ->
              exists ph sc,
                to_float float_of_str ph_given = inr ph
                /\ predict_feasibility location (name entry) 50 50 50 ph
                     (climate_info body) = inr sc
                /\ score entry = round_nd sc 2
     | InternalServerError e =>
         to_float float_of_str ph_given = inl e
         \/ (climate_forecast location month g).1 = inl e
         \/ exists crop ph climate,
              to_float float_of_str ph_given = inr ph
              /\ (climate_forecast location month g).1 = inr climate
              /\ crop ∈ CROPS_LIST
              /\ predict_feasibility location crop 50 50 50 ph climate = inl e
     end
  /\ (forall ph climate g',
         to_float float_of_str ph_given = inr ph ->
         climate_forecast location month g = (inr climate, g') ->
         (forall crop, crop ∈ CROPS_LIST ->
            exists sc, predict_feasibility location crop 50 50 50 ph climate = inr sc) ->
         exists body,
           analyze round_nd float_of_str predict_feasibility climate_forecast
             json month g = (Ok body, g')
           /\ climate_info body = climate).
Proof.
  intros Hsoil Hout data location ph_given.
  assert (Hget : dict_get SOIL_NUTRIENT_MAP (VStr s) {| n := 50; p := 50; k := 50 |}
                 = inr {| n := 50; p := 50; k := 50 |}).
  { cbn. by rewrite soil_fallback. }
  split; [exact Hget|].
  unfold analyze. cbn zeta. rewrite Hsoil. cbn [default].
  fold data. fold location. fold ph_given.
  change (dict_item SOIL_NUTRIENT_MAP "Default") with
    (@inr exn nutrients {| n := 50; p := 50; k := 50 |}).
  change (id (VStr s)) with (VStr s).
  split.
  - destruct (to_float float_of_str ph_given) as [e|ph] eqn:Hph; [by left|].
    destruct (climate_forecast location month g) as [[e|climate] g'];
      cbn [fst bind respond]; [by right; left|].
    rewrite Hget. cbn [bind].
    destruct (mapM _ CROPS_LIST) as [e|results] eqn:Hresults; cbn [bind respond ret].
    + right; right. apply mapM_inl in Hresults as (crop & Hin & Hcrop).
      apply score_crop_inl in Hcrop. exists crop, ph, climate. auto.
    + apply mapM_inr in Hresults. cbn [crops climate_info].
      assert (Hnames : name <$> results = CROPS_LIST).
      { clear -Hresults. induction Hresults as [|crop entry l l' Hentry _ IH]; cbn.
        - reflexivity.
        - apply score_crop_inr in Hentry as [-> _]. by rewrite IH. }
      split; [|split].
      * rewrite sorted_by_score_Permutation.
        by rewrite <- (length_fmap name), Hnames.
      * by rewrite sorted_by_score_Permutation, Hnames.
      * intros entry Hentry. rewrite sorted_by_score_Permutation in Hentry.
        apply list_elem_of_lookup in Hentry as [i Hi].
        destruct (Forall2_lookup_r _ _ _ _ _ Hresults Hi) as (crop & _ & Hcrop).
        apply score_crop_inr in Hcrop as (<- & sc & Hsc & Hscore).
        exists ph, sc. cbn in Hsc. auto.
  - intros ph climate g' -> -> Hscorer. cbn [bind]. rewrite Hget. cbn [bind].
    destruct (mapM_total
                (score_crop round_nd predict_feasibility location
                   {| n := 50; p := 50; k := 50 |} ph climate) CROPS_LIST)
      as (results & -> & _).
    + intros crop Hcrop. destruct (Hscorer crop Hcrop) as [sc Hsc].
      unfold score_crop. cbn [n p k]. rewrite Hsc. cbn. eauto.
    + cbn [bind respond ret]. eexists. split; reflexivity.
Qed.
End Analyze.

Lemma analyze_unknown_soil_witness :
  length (match (analyze keep sample_parse sample_scorer
                   (seasonal_forecast capitalize_ascii keep) sample_request 4 2024).1 with
          | Ok body => crops body
          | InternalServerError _ => []
          end) = 7%nat.
Proof.
  assert (Hsoil : default ∅ sample_request !! "soil" = Some (VStr "Peat")) by reflexivity.
  assert (Hout : "Peat" ∉ ["Clay"; "Loamy"; "Sandy"]).
  { apply (bool_decide_unpack _). vm_compute. exact I. }
  pose proof (analyze_unknown_soil keep sample_parse sample_scorer
                (seasonal_forecast capitalize_ascii keep)
                sample_request 4 2024 "Peat" Hsoil Hout) as (_ & Hanswer & _).
  destruct (analyze keep sample_parse sample_scorer
              (seasonal_forecast capitalize_ascii keep) sample_request 4 2024).1
    as [body|e] eqn:Hrun.
  - exact (proj1 Hanswer).
  - vm_compute in Hrun. discriminate Hrun.
Defined.

End AppFacts.

(** ** The allocation optimizer *)

Module OptimizerFacts.
Import Optimizer Sample FloatFacts.

(** *** Grouping the farmers by crop *)

Lemma concat_nil_fmap {A B} (l : list A) :
  concat ((fun _ => @nil B) <$> l) = [].
Proof. induction l as [|a l IH]; cbn; [reflexivity|exact IH]. Qed.

Lemma concat_add_absent {B} (F : string -> list B) (l : list string) (c0 : string) (x : B) :
  c0 ∉ l ->
  concat ((fun c => if decide (Some c0 = Some c) then x :: F c else F c) <$> l)
  = concat (F <$> l).
Proof.
  induction l as [|c l IH]; intros Hout; cbn; [reflexivity|].
  apply not_elem_of_cons in Hout as [Hne Hout].
  rewrite decide_False by congruence. by rewrite IH.
Qed.

Lemma concat_add_once {B} (F : string -> list B) (l : list string) (c0 : string) (x : B) :
  NoDup l -> c0 ∈ l ->
  concat ((fun c => if decide (Some c0 = Some c) then x :: F c else F c) <$> l)
  ≡ₚ x :: concat (F <$> l).
Proof.
  induction l as [|c l IH]; intros Hnodup Hin; [by apply elem_of_nil in Hin|].
  apply NoDup_cons in Hnodup as [Hfresh Hnodup]. cbn.
  apply elem_of_cons in Hin as [->|Hin].
  - rewrite decide_True by reflexivity.
    by rewrite concat_add_absent.
  - rewrite decide_False by (intros [= ->]; contradiction).
    rewrite IH by done. by rewrite Permutation_middle.
Qed.

(** Splitting a list of farmers by assigned crop loses and repeats nobody. *)
Lemma group_by_crop (st : gmap Z string) (l : list Z) (cs : list string) :
  NoDup cs ->
  (forall i, i ∈ l -> exists c, st !! i = Some c /\ c ∈ cs) ->
  concat ((fun c => filter (fun i => st !! i = Some c) l) <$> cs) ≡ₚ l.
Proof.
  intros Hnodup. induction l as [|x l IH]; intros Hall.
  - cbn. by rewrite concat_nil_fmap.
  - destruct (Hall x) as (c0 & Hx & Hc0); [left|].
    set (F := fun c => filter (fun i => st !! i = Some c) l).
    transitivity (x :: concat (F <$> cs)).
    + rewrite <- (concat_add_once F cs c0 x Hnodup Hc0).
      apply reflexive_eq. f_equal. apply list_fmap_ext. intros _ c _.
      unfold F. rewrite filter_cons, Hx.
      destruct (decide (Some c0 = Some c)); reflexivity.
    + apply Permutation_skip. apply IH. intros i Hi. apply Hall. by right.
Qed.

(** *** The search *)

Section Search.
Context {G : Type} `{Generator G}.
Variable external_score : Z -> string -> option float.
Variable exp : float -> float.
Variable farmers : gmap Z farmer.
Variable demand : gmap string float.
Variable cfg : config.

Local Abbreviation E := (energy external_score farmers demand cfg).
Local Abbreviation start := (initial external_score farmers demand cfg).
Local Abbreviation search := (anneal external_score exp farmers demand cfg).
Local Abbreviation full := (full_assignment farmers demand).
Local Abbreviation kept := (sound farmers demand).

Lemma roster_lookup (i : Z) (f : farmer) :
  (i, f) ∈ roster farmers <-> farmers !! i = Some f.
Proof. apply elem_of_map_to_list. Qed.

Lemma ids_dom (i : Z) : i ∈ ids farmers <-> i ∈ dom farmers.
Proof.
  unfold ids. rewrite list_elem_of_fmap, elem_of_dom. split.
  - intros ([j f] & -> & Hin). apply roster_lookup in Hin. by exists f.
  - intros [f Hf]. exists (i, f). split; [reflexivity|]. by apply roster_lookup.
Qed.

Lemma draw_below_lt (bound : nat) (g : G) :
  (0 < bound)%nat -> ((draw_below bound g).1 < bound)%nat.
Proof.
  intros Hpos. unfold draw_below. destruct (next_index g) as [r g']. cbn.
  apply Nat.mod_upper_bound. lia.
Qed.

Lemma validate_accepts :
  validate farmers demand = None ->
  roster farmers ≠ [] /\ (2 <= length (crops demand))%nat.
Proof.
  unfold validate.
  destruct (roster farmers) as [|x r]; [discriminate|].
  destruct (targets demand) as [|y t] eqn:Ht; [discriminate|].
  destruct (PrimFloat.eqb _ 0); [discriminate|].
  destruct (Nat.ltb_spec (length (crops demand)) 2); [discriminate|].
  intros _. split; [discriminate|lia].
Qed.

Lemma random_assignment_full (l : list Z) (g : G) :
  (0 < length (crops demand))%nat ->
  dom (random_assignment demand l g).1 = list_to_set l
  /\ forall i c, (random_assignment demand l g).1 !! i = Some c -> c ∈ crops demand.
Proof.
  intros Hcrops. revert g. induction l as [|i l IH]; intros g; cbn.
  - split; [apply dom_empty_L|]. intros i c. by rewrite lookup_empty.
  - pose proof (draw_below_lt (length (crops demand)) g Hcrops) as Hj.
    destruct (draw_below (length (crops demand)) g) as [j g1]. cbn in Hj.
    destruct (IH g1) as [Hdom Hvals].
    destruct (random_assignment demand l g1) as [st g2]. cbn in *.
    split; [by rewrite dom_insert_L, Hdom|].
    intros i' c. destruct (decide (i = i')) as [->|Hne].
    + rewrite lookup_insert_eq. intros [= <-].
      destruct (lookup_lt_is_Some_2 (crops demand) j Hj) as [c Hc].
      rewrite Hc. cbn. apply list_elem_of_lookup. by exists j.
    + rewrite lookup_insert_ne by done. apply Hvals.
Qed.

Lemma ids_to_set : list_to_set (ids farmers) = dom farmers.
Proof.
  apply set_eq. intros i. rewrite elem_of_list_to_set. apply ids_dom.
Qed.


Lemma initial_sound :
  validate farmers demand = None -> kept (current start) (E (current start)) start.
Proof.
  intros Hvalid. apply validate_accepts in Hvalid as [_ Hcrops].
  unfold initial.
  destruct (random_assignment_full (ids farmers) (seeded (seed cfg))) as [Hdom Hvals];
    [lia|].
  destruct (random_assignment demand (ids farmers) (seeded (seed cfg))) as [st g].
  cbn in *. rewrite ids_to_set in Hdom.
  repeat split; try done; [by left|apply ltb_irrefl].
Qed.

Lemma cool_sound st0 e0 (m : machine G) (g : G) :
  kept st0 e0 m -> kept st0 e0 (cool cfg m g).
Proof. intros Hm. exact Hm. Qed.

Lemma insert_full (st : gmap Z string) (i : Z) (a b : string) :
  full st -> st !! i = Some a -> b ∈ crops demand ->
  full (<[i := b]> st).
Proof.
  intros [Hdom Hvals] Hst Hb. split.
  - rewrite dom_insert_lookup_L; [exact Hdom|by exists a].
  - intros j c. destruct (decide (i = j)) as [->|Hne].
    + rewrite lookup_insert_eq. by intros [= <-].
    + rewrite lookup_insert_ne by done. apply Hvals.
Qed.

Lemma move_sound st0 e0 (m : machine G) (i : Z) (a b : string) (dE : float) :
  kept st0 e0 m ->
  current m !! i = Some a ->
  b ∈ crops demand ->
  kept st0 e0 (move m i b dE).
Proof.
  intros (Hcur & Hbest & Hle & Hlow) Hst Hb.
  pose proof (insert_full _ i a b Hcur Hst Hb) as Hfull.
  unfold move, sound. cbn.
  destruct (PrimFloat.ltb (PrimFloat.add (current_energy m) dE) (best_energy m))
    eqn:Hbetter.
  - split; [exact Hfull|]. split; [exact Hfull|]. split; [|apply ltb_irrefl].
    right. destruct Hle as [[_ <-]|Hle]; [exact Hbetter|].
    by apply (ltb_trans _ (best_energy m)).
  - split; [exact Hfull|]. split; [exact Hbest|]. split; [exact Hle|exact Hbetter].
Qed.

Lemma step_sound st0 e0 (m : machine G) :
  kept st0 e0 m -> kept st0 e0 (step external_score exp farmers demand cfg m).
Proof.
  intros Hm. unfold step.
  destruct (draw_below (length (roster farmers)) (generator m)) as [fi g1].
  destruct (roster farmers !! fi) as [[i f]|] eqn:Hfi; [|by apply cool_sound].
  destruct (current m !! i) as [a|] eqn:Hst; [|by apply cool_sound].
  destruct (draw_below _ g1) as [ci g2].
  destruct (filter _ (crops demand) !! ci) as [b|] eqn:Hci; [|by apply cool_sound].
  destruct (next_unit g2) as [u g3].
  destruct (accepts _ _ _ _); [|by apply cool_sound].
  apply cool_sound.
  assert (Hb : b ∈ filter (fun c => c ≠ a) (crops demand)).
  { apply list_elem_of_lookup. by exists ci. }
  apply list_elem_of_filter in Hb as [Hne Hb].
  by apply (move_sound st0 e0 m i a b).
Qed.

Lemma anneal_sound st0 e0 (budget : nat) (m : machine G) :
  kept st0 e0 m -> kept st0 e0 (search budget m).
Proof.
  revert m. induction budget as [|budget IH]; intros m Hm; cbn; [exact Hm|].
  destruct (PrimFloat.ltb _ _); [exact Hm|]. apply IH. by apply step_sound.
Qed.

Lemma run_sound :
  validate farmers demand = None ->
  kept (current start) (E (current start))
       (run external_score exp farmers demand cfg).
Proof. intros Hvalid. unfold run. by apply anneal_sound, initial_sound. Qed.

Lemma full_assignment_ids (st : gmap Z string) :
  full st ->
  forall i, i ∈ ids farmers -> exists c, st !! i = Some c /\ c ∈ crops demand.
Proof.
  intros [Hdom Hvals] i Hi. apply ids_dom in Hi. rewrite <- Hdom in Hi.
  apply elem_of_dom in Hi as [c Hc]. exists c. split; [exact Hc|]. by eapply Hvals.
Qed.

(** The summary of a full assignment names every farmer once. *)
Lemma summary_covers (st : gmap Z string) :
  full st ->
  concat (summary farmers demand st).*2 ≡ₚ ids farmers.
Proof.
  intros Hfull. unfold summary, assigned_to, ordered_crops.
  rewrite <- list_fmap_compose.
  change (concat ((fun c => filter (fun i => st !! i = Some c) (ids farmers))
                    <$> merge_sort by_name (crops demand)) ≡ₚ ids farmers).
  apply group_by_crop.
  - rewrite merge_sort_Permutation. apply NoDup_fst_map_to_list.
  - intros i Hi. destruct (full_assignment_ids st Hfull i Hi) as (c & Hc & Hin).
    exists c. split; [exact Hc|]. by rewrite merge_sort_Permutation.
Qed.

(** C3.  When the optimizer returns, the farmers listed in its allocation
    summary are the farmers of the cluster, each exactly once: the listing is a
    rearrangement of the cluster's identifiers and has no repetition.  The
    snapshot behind it, like every state the search passes through, assigns a
    crop of the crop set to every farmer and to nobody else. *)
Theorem optimize_assigns_once
    (alloc : list (string * list Z)) (heat : list (Z * list (string * Z))) :
  optimize external_score exp farmers demand cfg = inr (alloc, heat) ->
  concat alloc.*2 ≡ₚ ids farmers
  /\ NoDup (concat alloc.*2)
  /\ (forall i, i ∈ concat alloc.*2 <-> i ∈ dom farmers)
  /\ (forall budget,
        full (current (search budget start))
        /\ full (best (search budget start))).
Proof.
  unfold optimize.
  destruct (validate farmers demand) as [e|] eqn:Hvalid; [discriminate|].
  intros [= <- _].
  assert (Hsound : forall budget,
             kept (current start) (E (current start)) (search budget start))
    by (intros budget; by apply anneal_sound, initial_sound).
  assert (Hcover : concat (summary farmers demand
                             (best (run external_score exp farmers demand cfg))).*2
                   ≡ₚ ids farmers).
  { apply summary_covers. apply (Hsound (maxIterations cfg)). }
  split; [exact Hcover|]. split; [|split].
  - rewrite Hcover. apply NoDup_fst_map_to_list.
  - intros i. rewrite Hcover. apply ids_dom.
  - intros budget. destruct (Hsound budget) as (Hcur & Hbest & _). by split.
Qed.


(** C6.  With no farmer the optimizer answers [EmptyClusterError], whatever the
    demand map, the configuration, the scorer and the generator are: the check
    comes first, sees only the cluster, and leaves no allocation or heatmap.
    Conversely that error is reserved to the empty cluster. *)
Theorem optimize_empty_cluster :
  optimize external_score exp ∅ demand cfg = inl EmptyClusterError
  /\ validate ∅ demand = Some EmptyClusterError
  /\ (optimize external_score exp farmers demand cfg = inl EmptyClusterError
      <-> farmers = ∅).
Proof.
  assert (Hempty : validate ∅ demand = Some EmptyClusterError).
  { unfold validate, roster. by rewrite map_to_list_empty. }
  split; [|split; [exact Hempty|]].
  - unfold optimize. by rewrite Hempty.
  - split.
    + unfold optimize, validate.
      destruct (roster farmers) as [|x r] eqn:Hroster.
      * intros _. by apply map_to_list_empty_iff.
      * destruct (targets demand); [discriminate|].
        destruct (PrimFloat.eqb _ 0); [discriminate|].
        destruct (_ <? _)%nat; discriminate.
    + intros ->. unfold optimize. by rewrite Hempty.
Qed.
End Search.

(** *** The request of [/api/optimize] *)

Lemma cluster_ids (i : Z) : i ∈ ids cluster <-> (0 <= i < 10)%Z.
Proof.
  assert (Hids : ids cluster = [7; 9; 5; 3; 6; 8; 4; 2; 1; 0]%Z) by reflexivity.
  rewrite Hids, !elem_of_cons, elem_of_nil. lia.
Qed.

(** Up to ten units add up without rounding. *)
Lemma fsum_units (n : nat) :
  (n <= 10)%nat -> fsum (replicate n 1%float) = float_of_Z (Z.of_nat n).
Proof.
  intros Hn.
  do 11 (destruct n as [|n]; [reflexivity|]). lia.
Qed.

Lemma unit_capacities (l : list (Z * farmer)) :
  Forall (fun x => capacity_of x.2 = 1%float) l ->
  (fun x => capacity_of x.2) <$> l = replicate (length l) 1%float.
Proof.
  induction 1 as [|x l Hx _ IH]; cbn; [reflexivity|]. by rewrite Hx, IH.
Qed.

(** On the cluster of the request the production of a crop is a whole number
    of units between 0 and 10. *)
Lemma cluster_production (c : string) (st : gmap Z string) :
  exists n : Z,
    (0 <= n <= 10)%Z /\ producedByCrop cluster c st = float_of_Z n.
Proof.
  unfold producedByCrop, produced_by.
  set (held := filter (fun x : Z * farmer => st !! x.1 = Some c) (roster cluster)).
  assert (Hlen : (length held <= 10)%nat).
  { unfold held. etransitivity; [apply length_filter|]. reflexivity. }
  assert (Hunits : Forall (fun x : Z * farmer => capacity_of x.2 = 1%float) held).
  { unfold held. apply Forall_forall. intros x Hx.
    apply list_elem_of_filter in Hx as [_ Hx]. revert x Hx. apply Forall_forall.
    repeat constructor. }
  exists (Z.of_nat (length held)). split; [lia|].
  rewrite (unit_capacities held Hunits). by apply fsum_units.
Qed.

(** Whatever the three productions are, the demand of the request leaves a
    positive demand term. *)
Lemma oversubscribed_grid (n1 n2 n3 : Z) :
  (0 <= n1 <= 10)%Z -> (0 <= n2 <= 10)%Z -> (0 <= n3 <= 10)%Z ->
  PrimFloat.ltb 0
    (fsum [PrimFloat.mul (PrimFloat.sub (float_of_Z n1) 15)
                         (PrimFloat.sub (float_of_Z n1) 15);
           PrimFloat.mul (PrimFloat.sub (float_of_Z n2) 15)
                         (PrimFloat.sub (float_of_Z n2) 15);
           PrimFloat.mul (PrimFloat.sub (float_of_Z n3) 20)
                         (PrimFloat.sub (float_of_Z n3) 20)]) = true.
Proof.
  intros H1 H2 H3.
  assert (Hgrid :
    forallb (fun n1 => forallb (fun n2 => forallb (fun n3 =>
      PrimFloat.ltb 0
        (fsum [PrimFloat.mul (PrimFloat.sub (float_of_Z n1) 15)
                             (PrimFloat.sub (float_of_Z n1) 15);
               PrimFloat.mul (PrimFloat.sub (float_of_Z n2) 15)
                             (PrimFloat.sub (float_of_Z n2) 15);
               PrimFloat.mul (PrimFloat.sub (float_of_Z n3) 20)
                             (PrimFloat.sub (float_of_Z n3) 20)]))
      (seqZ 0 11)) (seqZ 0 11)) (seqZ 0 11) = true).
  { vm_compute. reflexivity. }
  assert (Hin : forall n, (0 <= n <= 10)%Z -> In n (seqZ 0 11)).
  { intros n Hn. apply list_elem_of_In, elem_of_seqZ. lia. }
  rewrite forallb_forall in Hgrid. specialize (Hgrid n1 (Hin n1 H1)).
  rewrite forallb_forall in Hgrid. specialize (Hgrid n2 (Hin n2 H2)).
  rewrite forallb_forall in Hgrid. exact (Hgrid n3 (Hin n3 H3)).
Qed.

Lemma cluster_demandTerm_positive (st : gmap Z string) :
  PrimFloat.ltb 0 (demandTerm cluster cluster_demand st) = true.
Proof.
  unfold demandTerm.
  assert (Htargets : targets cluster_demand
                     = [("Olive", 15%float); ("Wheat", 15%float); ("Tomato", 20%float)])
    by (vm_compute; reflexivity).
  rewrite Htargets. cbn [fmap list_fmap]. unfold deviation. cbn [fst snd].
  destruct (cluster_production "Olive" st) as (n1 & H1 & ->).
  destruct (cluster_production "Wheat" st) as (n2 & H2 & ->).
  destruct (cluster_production "Tomato" st) as (n3 & H3 & ->).
  by apply oversubscribed_grid.
Qed.

(** C5.  On the request of [/api/optimize] (ten farmers of capacity 1, demand
    20 + 15 + 15 = 50) the optimizer returns: it yields an allocation in which
    each of the farmers 0 to 9 occurs exactly once, and the demand term of the
    snapshot it returns is strictly positive. *)
Theorem optimize_oversubscribed {G : Type} `{Generator G}
    (external_score : Z -> string -> option float) (exp : float -> float)
    (cfg : config) :
  fsum ((fun x => capacity_of x.2) <$> roster cluster) = 10%float
  /\ fsum (targets cluster_demand).*2 = 50%float
  /\ exists alloc heat,
       optimize external_score exp cluster cluster_demand cfg = inr (alloc, heat)
       /\ NoDup (concat alloc.*2)
       /\ (forall i, i ∈ concat alloc.*2 <-> (0 <= i < 10)%Z)
       /\ PrimFloat.ltb 0
            (demandTerm cluster cluster_demand
               (best (run external_score exp cluster cluster_demand cfg))) = true.
Proof.
  assert (Hvalid : validate cluster cluster_demand = None) by (vm_compute; reflexivity).
  split; [vm_compute; reflexivity|]. split; [vm_compute; reflexivity|].
  destruct (run_sound external_score exp cluster cluster_demand cfg Hvalid)
    as (_ & Hbest & _).
  pose proof (summary_covers cluster cluster_demand _ Hbest) as Hcover.
  eexists _, _. split; [unfold optimize; rewrite Hvalid; reflexivity|].
  split; [|split].
  - rewrite Hcover. apply NoDup_fst_map_to_list.
  - intros i. rewrite Hcover. apply cluster_ids.
  - apply cluster_demandTerm_positive.
Qed.

(** *** Sample runs *)

Example balanced_demand_met :
  let m := run sample_score sample_exp cluster balanced_demand (sample_config 0.9 100) in
  demandTerm cluster balanced_demand
    (current (initial sample_score cluster balanced_demand (sample_config 0.9 100)))
  = 8%float
  /\ demandTerm cluster balanced_demand (best m) = 0%float
  /\ length <$> (summary cluster balanced_demand (best m)).*2 = [2; 5; 3]%nat.
Proof. vm_compute. repeat split; reflexivity. Qed.


Lemma optimize_assigns_once_witness :
  NoDup (concat (summary cluster balanced_demand
                   (best (run sample_score sample_exp cluster balanced_demand
                            (sample_config 0.9 40)))).*2).
Proof.
  assert (Hrun : optimize sample_score sample_exp cluster balanced_demand
                   (sample_config 0.9 40)
                 = inr (summary cluster balanced_demand
                          (best (run sample_score sample_exp cluster balanced_demand
                                   (sample_config 0.9 40))),
                        heatmap cluster balanced_demand
                          (best (run sample_score sample_exp cluster balanced_demand
                                   (sample_config 0.9 40))))).
  { vm_compute. reflexivity. }
  exact (proj1 (proj2 (optimize_assigns_once sample_score sample_exp cluster
                         balanced_demand (sample_config 0.9 40) _ _ Hrun))).
Defined.


End OptimizerFacts.

(** ** The climate service: risk, seasons and spelling *)

Module ClimateRisk.
Import Climate Sample ClimateFacts.

(** *** Spelling *)

Lemma upper_lower (a : ascii) : upper (lower a) = upper a.
Proof. destruct a as [[] [] [] [] [] [] [] []]; reflexivity. Qed.

Lemma lower_lower (a : ascii) : lower (lower a) = lower a.
Proof. destruct a as [[] [] [] [] [] [] [] []]; reflexivity. Qed.

Lemma lowercase_lowercase (s : string) : lowercase (lowercase s) = lowercase s.
Proof. induction s as [|a s IH]; cbn; [reflexivity|]. by rewrite lower_lower, IH. Qed.

(** [capitalize_ascii] does not see the case of the letters it is given. *)
Lemma capitalize_lowercase (s : string) :
  capitalize_ascii (lowercase s) = capitalize_ascii s.
Proof.
  destruct s as [|a s]; cbn; [reflexivity|].
  by rewrite upper_lower, lowercase_lowercase.
Qed.

(** *** The profile and the season behind a forecast *)

Ltac split_city city :=
  lazymatch goal with
  | |- context [<[?k := _]> _ !! city] =>
      destruct (decide (city = k)) as [->|?];
      [ rewrite lookup_insert_eq
      | rewrite (lookup_insert_ne _ k city) by congruence; split_city city ]
  | |- _ => rewrite lookup_empty
  end.

Lemma profile_cases (city : string) :
  let p := default {| base_temp := 25; rain_factor := 1.2; type := "Mediterranean" |}
                   (climate_profiles !! city) in
  (city = "Jericho" /\ p = {| base_temp := 32; rain_factor := 0.2; type := "Arid" |})
  \/ (city ≠ "Jericho"
      /\ p ∈ [ {| base_temp := 25; rain_factor := 1.2; type := "Mediterranean" |};
               {| base_temp := 18; rain_factor := 1.1; type := "Highland" |};
               {| base_temp := 22; rain_factor := 1.3; type := "Mediterranean" |};
               {| base_temp := 24; rain_factor := 1.4; type := "Coastal Plain" |};
               {| base_temp := 26; rain_factor := 0.9; type := "Coastal" |};
               {| base_temp := 20; rain_factor := 1.2; type := "Highland" |} ]).
Proof.
  unfold climate_profiles. split_city city; cbn;
    try (left; split; reflexivity);
    right; (split; [congruence|]); rewrite !elem_of_cons; auto 10.
Qed.

Lemma season_cases (month : Z) :
  (month ∈ [6; 7; 8]
   /\ _get_season_modifiers month = ("Summer", 8.0%float, 0.0%float))
  \/ ((month ∉ [6; 7; 8])
      /\ _get_season_modifiers month
         ∈ [ ("Winter", (-8.0)%float, 2.0%float);
             ("Spring", 0.0%float, 0.8%float);
             ("Autumn", (-2.0)%float, 0.5%float) ]).
Proof.
  unfold _get_season_modifiers.
  destruct (decide (month ∈ [12; 1; 2])) as [Hw|Hw];
    [rewrite bool_decide_eq_true_2 by done | rewrite bool_decide_eq_false_2 by done].
  { right. split; [|rewrite !elem_of_cons; auto].
    rewrite !elem_of_cons, elem_of_nil in *. lia. }
  destruct (decide (month ∈ [3; 4; 5])) as [Hs|Hs];
    [rewrite bool_decide_eq_true_2 by done | rewrite bool_decide_eq_false_2 by done].
  { right. split; [|rewrite !elem_of_cons; auto].
    rewrite !elem_of_cons, elem_of_nil in *. lia. }
  destruct (decide (month ∈ [6; 7; 8])) as [Hu|Hu];
    [rewrite bool_decide_eq_true_2 by done | rewrite bool_decide_eq_false_2 by done].
  - left. by split.
  - right. split; [done|]. rewrite !elem_of_cons. auto.
Qed.

Section Risk.
Context {G : Type} `{Random G}.
Variable capitalize : string -> string.
Variable round_nd : float -> Z -> float.

Lemma project_risk city p month g :
  (project round_nd city p month g).1 !! "risk_factor"
  = Some (VStr (_calculate_risk
                  (PrimFloat.add (float_of_Z (base_temp p))
                                 (_get_season_modifiers month).1.2)
                  (PrimFloat.mul
                     (PrimFloat.mul
                        (PrimFloat.mul (rain_factor p) (_get_season_modifiers month).2)
                        (uniform 0.8 1.2 g).1)
                     (float_of_Z 50))
                  (type p))).
Proof.
  unfold project.
  destruct (_get_season_modifiers month) as [[season_name temp_mod] rain_mod].
  destruct (uniform _ _ g) as [u g']. reflexivity.
Qed.

(** The risk of a forecast, by district and season. *)
Lemma forecast_risk (location : string) (month : Z) (g : G) :
  exists (d : gmap string value) (g' : G) (r : string),
    get_seasonal_forecast capitalize round_nd location month g = (inr d, g')
    /\ d !! "risk_factor" = Some (VStr r)
    /\ ((capitalize location ≠ "Jericho" /\ r = "Stable")
        \/ (capitalize location = "Jericho" /\ month ∈ [6; 7; 8]
            /\ r = "High Heat Stress")
        \/ (capitalize location = "Jericho" /\ (month ∉ [6; 7; 8])
            /\ (r = "Flash Flood Risk" \/ r = "Stable"))).
Proof.
  rewrite get_seasonal_forecast_project. cbn zeta.
  set (p := default _ _). set (u := (uniform 0.8 1.2 g).1).
  eexists _, _, _. split; [reflexivity|]. split; [apply project_risk|].
  fold u.
  destruct (profile_cases (capitalize location)) as [[Hcity Hp]|[Hcity Hp]];
    fold p in Hp;
    destruct (season_cases month) as [[Hmonth Hmods]|[Hmonth Hmods]];
    rewrite Hmods || (rewrite !elem_of_cons, elem_of_nil in Hmods).
  - right; left. rewrite Hp. by repeat split.
  - right; right. rewrite Hp. split; [done|]. split; [done|].
    destruct Hmods as [->|[->|[->|[]]]]; vm_compute;
      destruct (PrimFloat.ltb _ _); auto.
  - left. split; [done|].
    rewrite !elem_of_cons, elem_of_nil in Hp.
    destruct Hp as [->|[->|[->|[->|[->|[->|[]]]]]]]; reflexivity.
  - left. split; [done|].
    rewrite !elem_of_cons, elem_of_nil in Hp.
    destruct Hp as [->|[->|[->|[->|[->|[->|[]]]]]]];
      destruct Hmods as [->|[->|[->|[]]]]; reflexivity.
Qed.

(** X1.  Outside Jericho the risk factor of a forecast is always "Stable",
    whatever the month and the random draw. *)
Theorem forecast_stable_outside_jericho (location : string) (month : Z) (g : G) :
  capitalize location ≠ "Jericho" ->
  exists (d : gmap string value) (g' : G),
    get_seasonal_forecast capitalize round_nd location month g = (inr d, g')
    /\ d !! "risk_factor" = Some (VStr "Stable").
Proof.
  intros Hcity.
  destruct (forecast_risk location month g) as (d & g' & r & Hrun & Hrisk & Hcases).
  exists d, g'. split; [exact Hrun|].
  destruct Hcases as [[_ ->]|[[Hj _]|[Hj _]]]; [exact Hrisk|contradiction|contradiction].
Qed.

(** X2.  A forecast reports "High Heat Stress" exactly for Jericho in June,
    July and August. *)
Theorem forecast_heat_stress_iff (location : string) (month : Z) (g : G) :
  exists (d : gmap string value) (g' : G),
    get_seasonal_forecast capitalize round_nd location month g = (inr d, g')
    /\ (d !! "risk_factor" = Some (VStr "High Heat Stress")
        <-> capitalize location = "Jericho" /\ month ∈ [6; 7; 8]).
Proof.
  destruct (forecast_risk location month g) as (d & g' & r & Hrun & Hrisk & Hcases).
  exists d, g'. split; [exact Hrun|]. rewrite Hrisk. split.
  - intros [= ->].
    destruct Hcases as [[_ [=]]|[(Hj & Hm & _)|(_ & _ & [[=]|[=]])]]. by split.
  - intros [Hj Hm].
    destruct Hcases as [[Hn _]|[(_ & _ & ->)|(_ & Hn & _)]];
      [contradiction|reflexivity|contradiction].
Qed.

(** X3.  No forecast ever reports "Frost Warning", and "Flash Flood Risk" can
    only be reported for Jericho outside June, July and August. *)
Theorem forecast_never_frost (location : string) (month : Z) (g : G) :
  exists (d : gmap string value) (g' : G),
    get_seasonal_forecast capitalize round_nd location month g = (inr d, g')
    /\ d !! "risk_factor" ≠ Some (VStr "Frost Warning")
    /\ (d !! "risk_factor" = Some (VStr "Flash Flood Risk")
        -> capitalize location = "Jericho" /\ (month ∉ [6; 7; 8])).
Proof.
  destruct (forecast_risk location month g) as (d & g' & r & Hrun & Hrisk & Hcases).
  exists d, g'. split; [exact Hrun|]. rewrite Hrisk. split.
  - intros [= ->].
    destruct Hcases as [[_ [=]]|[(_ & _ & [=])|(_ & _ & [[=]|[=]])]].
  - intros [= ->].
    destruct Hcases as [[_ [=]]|[(_ & _ & [=])|(Hj & Hm & _)]]. by split.
Qed.

(** X4.  The location, the season, the average temperature and the climate
    type of a forecast do not depend on the state of the random generator:
    only the rainfall and the risk can. *)
Theorem forecast_draw_independent (location : string) (month : Z) (g1 g2 : G) :
  exists (d1 d2 : gmap string value) (g1' g2' : G),
    get_seasonal_forecast capitalize round_nd location month g1 = (inr d1, g1')
    /\ get_seasonal_forecast capitalize round_nd location month g2 = (inr d2, g2')
    /\ forall key,
         key ∈ ["location"; "season_name"; "avg_temp_c"; "climate_type"] ->
         d1 !! key = d2 !! key.
Proof.
  rewrite !get_seasonal_forecast_project. cbn zeta.
  set (p := default _ _).
  eexists _, _, _, _. split; [reflexivity|]. split; [reflexivity|].
  intros key Hkey. unfold project.
  destruct (_get_season_modifiers month) as [[season_name temp_mod] rain_mod].
  destruct (uniform _ _ g1) as [u1 g1'], (uniform _ _ g2) as [u2 g2'].
  rewrite !elem_of_cons, elem_of_nil in Hkey.
  destruct Hkey as [->|[->|[->|[->|[]]]]]; reflexivity.
Qed.

(** X5.  Two spellings of a location that differ only in the case of their
    ASCII letters receive the same forecast: [str.capitalize] upper-cases the
    first character and lower-cases the others, so it does not see the case of
    the ASCII letters it is given. *)
Theorem forecast_ignores_case (s1 s2 : string) (month : Z) (g : G) :
  (forall s, capitalize (lowercase s) = capitalize s) ->
  lowercase s1 = lowercase s2 ->
  get_seasonal_forecast capitalize round_nd s1 month g = get_seasonal_forecast capitalize round_nd s2 month g.
Proof.
  intros Hcase Hsame. rewrite !get_seasonal_forecast_project.
  by rewrite <- (Hcase s1), Hsame, Hcase.
Qed.
End Risk.

Lemma forecast_stable_outside_jericho_witness :
  exists (d : gmap string value) (g' : Z),
    get_seasonal_forecast capitalize_ascii keep "gaza" 7 2024 = (inr d, g')
    /\ d !! "risk_factor" = Some (VStr "Stable").
Proof.
  apply (forecast_stable_outside_jericho capitalize_ascii keep "gaza" 7 2024).
  vm_compute. discriminate.
Defined.

Lemma forecast_ignores_case_witness :
  get_seasonal_forecast capitalize_ascii keep "JERICHO" 1 2024
  = get_seasonal_forecast capitalize_ascii keep "jericho" 1 2024.
Proof.
  apply (forecast_ignores_case capitalize_ascii keep "JERICHO" "jericho" 1 2024).
  - exact capitalize_lowercase.
  - vm_compute. reflexivity.
Defined.

End ClimateRisk.

(** ** The handlers of [app.py]: answers, order and failures *)

Module HandlerFacts.
Import App Sample AppFacts FloatFacts.

(** *** The ranking *)

Local Abbreviation number := (fun entry : crop_entry => PrimFloat.is_nan (score entry) = false).
Local Abbreviation ranked :=
  (StronglySorted (fun a b : crop_entry => PrimFloat.leb (score b) (score a) = true)).

(** Among scores that are numbers, an insertion keeps every entry at least as
    good as all those that follow it. *)
Lemma insert_by_score_ranked (x : crop_entry) (l : list crop_entry) :
  number x -> Forall number l -> ranked l -> ranked (insert_by_score x l).
Proof.
  intros Hx Hl Hsorted. induction l as [|y l IH]; cbn.
  - repeat constructor.
  - apply Forall_cons in Hl as [Hy Hl].
    apply StronglySorted_inv in Hsorted as [Hrest Hbelow].
    destruct (PrimFloat.ltb (score x) (score y)) eqn:Hxy.
    + constructor; [by apply IH|].
      apply Forall_forall. intros z Hz.
      rewrite insert_by_score_Permutation in Hz.
      apply elem_of_cons in Hz as [->|Hz].
      * by apply ltb_leb.
      * by apply (proj1 (Forall_forall _ _) Hbelow).
    + assert (Hyx : PrimFloat.leb (score y) (score x) = true) by by apply not_ltb_leb.
      constructor; [by constructor|]. constructor; [exact Hyx|].
      eapply Forall_impl; [exact Hbelow|].
      intros z Hzy. cbn in Hzy. by apply (leb_trans _ (score y)).
Qed.

Lemma sorted_by_score_ranked (l : list crop_entry) :
  Forall number l -> ranked (sorted_by_score l).
Proof.
  induction l as [|x l IH]; intros Hl; cbn; [constructor|].
  apply Forall_cons in Hl as [Hx Hl].
  apply insert_by_score_ranked; [exact Hx| |by apply IH].
  fold (sorted_by_score l). by rewrite sorted_by_score_Permutation.
Qed.

(** An insertion passes only entries with a strictly higher score, so the
    entries that share a score keep their order. *)
Lemma insert_by_score_stable (v : float) (x : crop_entry) (l : list crop_entry) :
  filter (fun entry => PrimFloat.eqb (score entry) v = true) (insert_by_score x l)
  = filter (fun entry => PrimFloat.eqb (score entry) v = true) (x :: l).
Proof.
  induction l as [|y l IH]; cbn [insert_by_score]; [reflexivity|].
  destruct (PrimFloat.ltb (score x) (score y)) eqn:Hxy; [|reflexivity].
  rewrite (filter_cons _ y (insert_by_score x l)), IH.
  rewrite (filter_cons _ x (y :: l)), (filter_cons _ y l), (filter_cons _ x l).
  destruct (decide (PrimFloat.eqb (score x) v = true)) as [Hx|Hx];
    destruct (decide (PrimFloat.eqb (score y) v = true)) as [Hy|Hy];
    try reflexivity.
  rewrite (eqb_not_ltb _ _ _ Hx Hy) in Hxy. discriminate.
Qed.

Lemma sorted_by_score_stable (v : float) (l : list crop_entry) :
  filter (fun entry => PrimFloat.eqb (score entry) v = true) (sorted_by_score l)
  = filter (fun entry => PrimFloat.eqb (score entry) v = true) l.
Proof.
  induction l as [|x l IH]; cbn [sorted_by_score foldr]; [reflexivity|].
  fold (sorted_by_score l).
  by rewrite insert_by_score_stable, !filter_cons, IH.
Qed.

(** *** [/api/analyze] *)

Section Analyze.
Context {G : Type} `{Random G}.
Variable round_nd : float -> Z -> float.
Variable float_of_str : string -> result float.
Variable predict_feasibility :
  value -> string -> Z -> Z -> Z -> float -> gmap string value -> result float.
Variable climate_forecast : value -> Z -> G -> result (gmap string value) * G.

(** What stands behind a successful answer. *)
Lemma analyze_ok (json : option (gmap string value)) (month : Z) (g g' : G)
    (body : analyze_body) :
  analyze round_nd float_of_str predict_feasibility climate_forecast json month g
  = (Ok body, g') ->
  let data := default ∅ json in
  let location := default (VStr "Jenin") (data !! "location") in
  let soil_type := default (VStr "Loamy") (data !! "soil") in
  let ph_given := default (VFloat 6.5) (data !! "ph") in
  exists ph climate chem results,
    to_float float_of_str ph_given = inr ph
    /\ climate_forecast location month g = (inr climate, g')
    /\ dict_get SOIL_NUTRIENT_MAP soil_type {| n := 50; p := 50; k := 50 |} = inr chem
    /\ mapM (score_crop round_nd predict_feasibility location chem ph climate) CROPS_LIST
       = inr results
    /\ body = {| crops := sorted_by_score results; climate_info := climate |}.
Proof.
  intros Hrun data location soil_type ph_given. revert Hrun.
  unfold analyze. cbn zeta. fold data. fold location. fold soil_type. fold ph_given.
  destruct (to_float float_of_str ph_given) as [e|ph]; [discriminate|].
  destruct (climate_forecast location month g) as [[e|climate] g1];
    cbn [bind respond]; [discriminate|].
  change (dict_item SOIL_NUTRIENT_MAP "Default") with
    (@inr exn nutrients {| n := 50; p := 50; k := 50 |}).
  cbn [bind].
  destruct (dict_get SOIL_NUTRIENT_MAP soil_type _) as [e|chem] eqn:Hchem;
    cbn [bind respond]; [discriminate|].
  destruct (mapM _ CROPS_LIST) as [e|results] eqn:Hresults;
    cbn [bind respond ret]; [discriminate|].
  intros [= <- <-]. by exists ph, climate, chem, results.
Qed.

Lemma scored_names location chem ph climate (l : list string) (results : list crop_entry) :
  mapM (score_crop round_nd predict_feasibility location chem ph climate) l = inr results ->
  name <$> results = l.
Proof.
  intros Hresults. apply mapM_inr in Hresults.
  induction Hresults as [|crop entry l l' Hentry _ IH]; cbn; [reflexivity|].
  apply score_crop_inr in Hentry as [-> _]. by rewrite IH.
Qed.

(** X6.  Whatever the request, a successful answer of [analyze] lists each of
    the seven crops of [CROPS_LIST] exactly once. *)
Theorem analyze_lists_every_crop (json : option (gmap string value)) (month : Z)
    (g g' : G) (body : analyze_body) :
  analyze round_nd float_of_str predict_feasibility climate_forecast json month g
  = (Ok body, g') ->
  name <$> crops body ≡ₚ CROPS_LIST
  /\ NoDup (name <$> crops body)
  /\ length (crops body) = 7%nat.
Proof.
  intros Hrun.
  destruct (analyze_ok _ _ _ _ _ Hrun) as (ph & climate & chem & results & _ & _ & _ & Hres & ->).
  apply scored_names in Hres. cbn [crops].
  assert (Hperm : name <$> sorted_by_score results ≡ₚ CROPS_LIST).
  { by rewrite sorted_by_score_Permutation, Hres. }
  split; [exact Hperm|]. split.
  - rewrite Hperm. apply (bool_decide_unpack _). vm_compute. exact I.
  - by rewrite <- (length_fmap name), Hperm.
Qed.

(** X7.  In a successful answer of [analyze] whose scores are all numbers (none
    is NaN) the crops are ranked from the best to the worst: the score of every
    entry is greater than or equal to the score of every entry that comes
    after it, and the crops that share a score come in the order of
    [CROPS_LIST]. *)
Theorem analyze_ranked (json : option (gmap string value)) (month : Z)
    (g g' : G) (body : analyze_body) :
  analyze round_nd float_of_str predict_feasibility climate_forecast json month g
  = (Ok body, g') ->
  (forall entry, entry ∈ crops body -> PrimFloat.is_nan (score entry) = false) ->
  StronglySorted (fun a b => PrimFloat.leb (score b) (score a) = true) (crops body)
  /\ forall v,
       name <$> filter (fun entry => PrimFloat.eqb (score entry) v = true) (crops body)
       `sublist_of` CROPS_LIST.
Proof.
  intros Hrun.
  destruct (analyze_ok _ _ _ _ _ Hrun)
    as (ph & climate & chem & results & _ & _ & _ & Hres & ->).
  cbn [crops]. intros Hnumbers. split.
  - apply sorted_by_score_ranked.
    apply Forall_forall. intros entry Hentry. apply Hnumbers.
    by rewrite sorted_by_score_Permutation.
  - intros v. rewrite sorted_by_score_stable.
    rewrite <- (scored_names _ _ _ _ _ _ Hres).
    apply fmap_sublist, sublist_filter.
Qed.

(** X8.  Every entry of a successful answer carries one of the three statuses,
    decided by the score before rounding: green above 75, yellow above 45,
    red otherwise; the score shown is that score rounded to two digits. *)
Theorem analyze_status (json : option (gmap string value)) (month : Z)
    (g g' : G) (body : analyze_body) (entry : crop_entry) :
  analyze round_nd float_of_str predict_feasibility climate_forecast json month g
  = (Ok body, g') ->
  entry ∈ crops body ->
  status entry ∈ ["green"; "yellow"; "red"]
  /\ exists (chem : nutrients) (ph raw : float),
       predict_feasibility (default (VStr "Jenin") (default ∅ json !! "location"))
         (name entry) (n chem) (p chem) (k chem) ph (climate_info body) = inr raw
       /\ score entry = round_nd raw 2
       /\ (status entry = "green" <-> PrimFloat.ltb 75 raw = true)
       /\ (status entry = "yellow"
           <-> PrimFloat.ltb 75 raw = false /\ PrimFloat.ltb 45 raw = true)
       /\ (status entry = "red"
           <-> PrimFloat.ltb 75 raw = false /\ PrimFloat.ltb 45 raw = false).
Proof.
  intros Hrun Hentry.
  destruct (analyze_ok _ _ _ _ _ Hrun)
    as (ph & climate & chem & results & _ & _ & _ & Hres & ->).
  cbn [crops climate_info] in *.
  rewrite sorted_by_score_Permutation in Hentry.
  apply mapM_inr in Hres.
  apply list_elem_of_lookup in Hentry as [i Hi].
  destruct (Forall2_lookup_r _ _ _ _ _ Hres Hi) as (crop & _ & Hcrop).
  revert Hcrop. unfold score_crop.
  destruct (predict_feasibility _ crop _ _ _ _ _) as [e|raw] eqn:Hraw;
    cbn; [discriminate|].
  intros [= <-]. cbn.
  split.
  - destruct (PrimFloat.ltb 75 raw), (PrimFloat.ltb 45 raw);
      rewrite !elem_of_cons; auto.
  - exists chem, ph, raw. split; [exact Hraw|]. split; [reflexivity|].
    destruct (PrimFloat.ltb 75 raw), (PrimFloat.ltb 45 raw);
      repeat split; try discriminate; try reflexivity; intros [? ?]; discriminate.
Qed.

(** X10.  Keys that the request leaves out take the defaults: a null body
    is answered like the empty object, and any object like the same object with
    location "Jenin", soil "Loamy" and ph 6.5 filled in where they are absent. *)
Theorem analyze_defaults (data : gmap string value) (month : Z) (g : G) :
  analyze round_nd float_of_str predict_feasibility climate_forecast None month g
  = analyze round_nd float_of_str predict_feasibility climate_forecast (Some ∅) month g
  /\ analyze round_nd float_of_str predict_feasibility climate_forecast
       (Some data) month g
     = analyze round_nd float_of_str predict_feasibility climate_forecast
         (Some (<["location" := default (VStr "Jenin") (data !! "location")]>
                (<["soil" := default (VStr "Loamy") (data !! "soil")]>
                 (<["ph" := default (VFloat 6.5) (data !! "ph")]> data))))
         month g.
Proof.
  split; [reflexivity|].
  unfold analyze. cbn zeta. cbn [default from_option]. unfold id.
  rewrite lookup_insert_eq.
  rewrite (lookup_insert_ne _ "location" "soil") by done. rewrite lookup_insert_eq.
  rewrite (lookup_insert_ne _ "location" "ph") by done.
  rewrite (lookup_insert_ne _ "soil" "ph") by done. rewrite lookup_insert_eq.
  reflexivity.
Qed.

End Analyze.

(** *** [/api/analyze] behind the service of [climate_service.py] *)

Section Served.
Context {G : Type} `{Random G}.
Variable capitalize : string -> string.
Variable round_nd : float -> Z -> float.
Variable float_of_str : string -> result float.
Variable predict_feasibility :
  value -> string -> Z -> Z -> Z -> float -> gmap string value -> result float.

(** The handler served by the [ClimateService] of [climate_service.py]. *)
Local Abbreviation analyze_served :=
  (analyze round_nd float_of_str predict_feasibility
     (seasonal_forecast capitalize round_nd)).

(** X9.  When the climate service is the [ClimateService] of
    [climate_service.py], the [climate_info] of a successful answer is the
    forecast for the location of the request: the location is a string, the
    dictionary names it as [str.capitalize] returns it and holds the five
    fields of the forecast. *)
Theorem analyze_climate_info (json : option (gmap string value)) (month : Z)
    (g g' : G) (body : analyze_body) :
  analyze_served json month g = (Ok body, g') ->
  exists s : string,
    default (VStr "Jenin") (default ∅ json !! "location") = VStr s
    /\ Climate.get_seasonal_forecast capitalize round_nd s month g
       = (inr (climate_info body), g')
    /\ climate_info body !! "location" = Some (VStr (capitalize s))
    /\ (exists x, climate_info body !! "season_name" = Some (VStr x))
    /\ (exists x, climate_info body !! "avg_temp_c" = Some (VFloat x))
    /\ (exists x, climate_info body !! "rainfall_mm" = Some (VFloat x))
    /\ (exists x, climate_info body !! "climate_type" = Some (VStr x))
    /\ (exists x, climate_info body !! "risk_factor" = Some (VStr x)).
Proof.
  intros Hrun.
  destruct (analyze_ok _ _ _ _ _ _ _ _ _ Hrun)
    as (ph & climate & chem & results & _ & Hforecast & _ & _ & ->).
  cbn [climate_info]. revert Hforecast. unfold seasonal_forecast.
  destruct (default (VStr "Jenin") _) as [| | | |s|]; try discriminate.
  intros Hforecast. exists s. split; [reflexivity|]. split; [exact Hforecast|].
  rewrite ClimateFacts.get_seasonal_forecast_project in Hforecast.
  cbn zeta in Hforecast. injection Hforecast as <- _.
  destruct (ClimateFacts.project_entries round_nd (capitalize s)
              (default {| Climate.base_temp := 25; Climate.rain_factor := 1.2;
                          Climate.type := "Mediterranean" |}
                       (Climate.climate_profiles !! capitalize s)) month g)
    as (Hl & Hs & Ht & Hr & Hc & Hk).
  repeat split; eauto.
Qed.

(** X11.  When the climate service is the [ClimateService] of
    [climate_service.py] and [float(ph)] has succeeded, a location that is not
    a string makes [analyze] answer 500 with [AttributeError] before any random
    number is drawn, and an array or object given as soil makes it answer 500
    with [TypeError]; neither answer depends on the scorer. *)
Theorem analyze_rejects (json : option (gmap string value)) (month : Z) (g : G)
    (ph : float) :
  let data := default ∅ json in
  let location := default (VStr "Jenin") (data !! "location") in
  let soil_type := default (VStr "Loamy") (data !! "soil") in
  to_float float_of_str (default (VFloat 6.5) (data !! "ph")) = inr ph ->
  ((forall s, location ≠ VStr s) ->
   analyze_served json month g = (InternalServerError AttributeError, g))
  /\ ((exists s, location = VStr s) -> soil_type = VOther ->
      (analyze_served json month g).1 = InternalServerError TypeError).
Proof.
  intros data location soil_type Hph. unfold analyze. cbn zeta.
  fold data. fold location. fold soil_type. rewrite Hph. split.
  - intros Hloc. unfold seasonal_forecast.
    destruct location as [| | | |s|]; try reflexivity. by destruct (Hloc s).
  - intros [s ->] ->. cbn [seasonal_forecast].
    rewrite ClimateFacts.get_seasonal_forecast_project. reflexivity.
Qed.
End Served.

(** The handler of the examples: ASCII spelling, no rounding. *)
Local Abbreviation sample_analyze :=
  (analyze keep sample_parse sample_scorer (seasonal_forecast capitalize_ascii keep)).

Lemma analyze_lists_every_crop_witness :
  exists body g',
    sample_analyze sample_request 4 2024 = (Ok body, g')
    /\ NoDup (name <$> crops body).
Proof.
  eexists _, _. split; [vm_compute; reflexivity|].
  eapply (analyze_lists_every_crop keep sample_parse sample_scorer
            (seasonal_forecast capitalize_ascii keep) sample_request 4 2024).
  vm_compute. reflexivity.
Defined.

Lemma analyze_ranked_witness :
  exists body g',
    sample_analyze sample_request 4 2024 = (Ok body, g')
    /\ StronglySorted (fun a b => PrimFloat.leb (score b) (score a) = true) (crops body).
Proof.
  eexists _, _. split; [vm_compute; reflexivity|].
  eapply proj1.
  eapply (analyze_ranked keep sample_parse sample_scorer
            (seasonal_forecast capitalize_ascii keep) sample_request 4 2024).
  - vm_compute. reflexivity.
  - intros entry Hentry. cbn in Hentry.
    repeat (apply elem_of_cons in Hentry as [->|Hentry]; [reflexivity|]).
    by apply elem_of_nil in Hentry.
Defined.

Lemma analyze_status_witness :
  exists body g' entry,
    sample_analyze sample_request 4 2024 = (Ok body, g')
    /\ entry ∈ crops body
    /\ status entry ∈ ["green"; "yellow"; "red"].
Proof.
  eexists _, _, _. split; [vm_compute; reflexivity|].
  split; [cbn; apply list_elem_of_here|].
  refine (proj1 (analyze_status keep sample_parse sample_scorer
                   (seasonal_forecast capitalize_ascii keep) sample_request
                   4 2024 _ _ _ _ _));
    [vm_compute; reflexivity | cbn; apply list_elem_of_here].
Defined.

Lemma analyze_climate_info_witness :
  exists body g',
    sample_analyze sample_request 4 2024 = (Ok body, g')
    /\ climate_info body !! "location" = Some (VStr "Gaza").
Proof.
  eexists _, _. split; [vm_compute; reflexivity|].
  edestruct (analyze_climate_info (H := lcg) capitalize_ascii keep sample_parse
               sample_scorer sample_request 4 2024) as (s & Hs & _ & Hloc & _);
    [vm_compute; reflexivity|].
  vm_compute in Hs. injection Hs as <-. exact Hloc.
Defined.

(** A request whose location is a number. *)
Lemma analyze_rejects_witness :
  sample_analyze (Some (<["location" := VInt 3]> ∅)) 4 2024
  = (InternalServerError AttributeError, 2024).
Proof.
  refine (proj1 (analyze_rejects capitalize_ascii keep sample_parse sample_scorer
                   (Some (<["location" := VInt 3]> ∅)) 4 2024 6.5%float _) _).
  - vm_compute. reflexivity.
  - intros s. vm_compute. discriminate.
Defined.

(** A [ph] too large for a float is refused by [float] itself, whatever the
    location. *)
Example analyze_huge_ph :
  (sample_analyze (Some (<["ph" := VInt (10 ^ 400)]> (<["location" := VInt 3]> ∅)))
     4 2024).1
  = InternalServerError OverflowError.
Proof. vm_compute. reflexivity. Qed.

(** *** [get_next_6_months] *)

Lemma next_months_shift (month k : Z) :
  k = (month - 1) mod 12 ->
  get_next_6_months month = get_next_6_months (k + 1).
Proof.
  intros ->. unfold get_next_6_months.
  assert (Hshift : forall i,
             (month - 1 + i) mod 12 = ((month - 1) mod 12 + 1 - 1 + i) mod 12).
  { intros i. replace ((month - 1) mod 12 + 1 - 1) with ((month - 1) mod 12) by lia.
    by rewrite Z.add_mod_idemp_l. }
  induction (seqZ 0 6) as [|i l IH]; cbn; [reflexivity|].
  by rewrite IH, Hshift.
Qed.

(** X12.  For every integer month [get_next_6_months] returns six labels,
    all different; the label at position [i] is the name of the month that
    comes [i] months after the current one, December being followed by
    January. *)
Theorem get_next_6_months_labels (month : Z) :
  exists labels,
    get_next_6_months month = inr labels
    /\ length labels = 6%nat
    /\ NoDup labels
    /\ forall i, (i < 6)%nat ->
         labels !! i
         = months_names !! Z.to_nat ((month - 1 + Z.of_nat i) mod 12).
Proof.
  pose proof (Z.mod_pos_bound (month - 1) 12 ltac:(lia)) as Hk.
  rewrite (next_months_shift month _ eq_refl).
  assert (Hshift : forall i, (month - 1 + i) mod 12 = ((month - 1) mod 12 + i) mod 12)
    by (intros i; by rewrite Z.add_mod_idemp_l).
  setoid_rewrite Hshift.
  revert Hk. generalize ((month - 1) mod 12). clear. intros k Hk.
  assert (Hcases : k = 0 \/ k = 1 \/ k = 2 \/ k = 3 \/ k = 4 \/ k = 5 \/ k = 6
                   \/ k = 7 \/ k = 8 \/ k = 9 \/ k = 10 \/ k = 11) by lia.
  clear Hk.
  destruct Hcases as [->|[->|[->|[->|[->|[->|[->|[->|[->|[->|[->| ->]]]]]]]]]]];
    (eexists; split; [vm_compute; reflexivity|]; split; [reflexivity|]; split;
     [apply (bool_decide_unpack _); vm_compute; exact I|];
     intros [|[|[|[|[|[|i]]]]]] Hi; [reflexivity..|lia]).
Qed.

(** *** [/api/market] *)

Section Market.
Context {G : Type} `{Random G}.
Variable round_nd : float -> Z -> float.
Variable long_true_divide : Z -> Z -> float.
Variable get_national_demand : string -> result float.

Lemma market_loop_aligned (turns : nat) (base_demand : float)
    (prices : list float) (demands : list Z) (g : G) :
  Forall2 (fun price d => price = round_nd (long_true_divide 4000 (divisor d)) 2)
          prices demands ->
  match (market_loop round_nd long_true_divide turns base_demand prices demands g).1 with
  | inr (prices', demands') =>
      Forall2 (fun price d => price = round_nd (long_true_divide 4000 (divisor d)) 2)
              prices' demands'
  | inl _ => True
  end.
Proof.
  revert prices demands g.
  induction turns as [|turns IH]; intros prices demands g Haligned; cbn;
    [exact Haligned|].
  pose proof (market_turn_outcome round_nd long_true_divide base_demand g) as Hturn.
  destruct (market_turn _ _ _ g) as [[e|[adjusted_demand price]] g']; cbn in *;
    [exact I|].
  apply IH. apply Forall2_app; [exact Haligned|]. by repeat constructor.
Qed.

(** X13.  In a successful answer of [market] the three lists go together:
    the months are the six labels of [get_next_6_months], and each price is the
    rounded quotient of 4000 by the divisor of the demand at the same place, a
    divisor that is at least 1. *)
Theorem market_aligned (month : Z) (g : G) :
  match (market round_nd long_true_divide get_national_demand month g).1 with
  | Ok body =>
      get_next_6_months month = inr (months body)
      /\ length (months body) = 6%nat
      /\ Forall2 (fun price d =>
                    price = round_nd (long_true_divide 4000 (divisor d)) 2
                    /\ 1 <= divisor d)
                 (prices body) (demand body)
  | InternalServerError _ => True
  end.
Proof.
  unfold market.
  destruct (get_next_6_months_total month) as (dates & Hdates & Hlen).
  rewrite Hdates. cbn -[market_loop].
  destruct (get_national_demand "Tomato") as [e|base_demand];
    cbn -[market_loop]; [exact I|].
  pose proof (market_loop_aligned 6 base_demand [] [] g ltac:(constructor)) as Hloop.
  destruct (market_loop _ _ _ _ _ _ g) as [[e|[prices' demands']] g']; cbn in *;
    [exact I|].
  split; [reflexivity|]. split; [exact Hlen|].
  eapply Forall2_impl; [exact Hloop|].
  intros price d ->. split; [reflexivity|apply divisor_positive].
Qed.

(** X14.  When the economist raises, [market] answers 500 with that very
    exception and draws no random number: the month labels, computed first,
    never fail before it. *)
Theorem market_economist_failure (month : Z) (g : G) (e : exn) :
  get_national_demand "Tomato" = inl e ->
  market round_nd long_true_divide get_national_demand month g
  = (InternalServerError e, g).
Proof.
  intros He. unfold market.
  destruct (get_next_6_months_total month) as (dates & -> & _).
  cbn -[market_loop]. by rewrite He.
Qed.
End Market.

Lemma market_economist_failure_witness :
  market keep sample_quotient (fun _ => inl (Raised "no model")) 11 2024
  = (InternalServerError (Raised "no model"), 2024).
Proof.
  apply (market_economist_failure keep sample_quotient
           (fun _ => inl (Raised "no model")) 11 2024).
  reflexivity.
Defined.

End HandlerFacts.

(** ** The market history of [data_pipeline.py] *)

Module PipelineFacts.
Import Pipeline Sample FloatFacts.

(** The floor holds for every price, NaN included. *)
Lemma max2_floor (x : float) : PrimFloat.leb 1.5 (max2 1.5 x) = true.
Proof.
  unfold max2. destruct (PrimFloat.ltb 1.5 x) eqn:Hlt.
  - by apply ltb_leb.
  - reflexivity.
Qed.

Section History.
Context {G : Type} `{Random G}.
Variable round_nd : float -> Z -> float.
Variable np_sin : float -> float.
Variable month_of_week : Z -> Z.
Variable strftime_week : Z -> string.

Local Abbreviation row_of := (week_row round_nd np_sin month_of_week strftime_week).

Lemma week_row_defined (crop : string) (base : Z) (i : Z) (g : G) :
  exists row g',
    row_of crop base i g = (inr row, g')
    /\ Crop row = crop
    /\ Date row = strftime_week i
    /\ exists price, PrimFloat.leb 1.5 price = true /\ Price row = round_nd price 2.
Proof.
  unfold week_row.
  destruct (uniform _ _ g) as [price_noise g1].
  set (price := max2 1.5 _).
  unfold float_truediv.
  rewrite (above_floor_nonzero price) by apply max2_floor.
  cbn [ret]. destruct (uniform _ _ g1) as [demand_noise g2].
  eexists _, _. split; [reflexivity|]. cbn.
  split; [reflexivity|]. split; [reflexivity|].
  exists price. split; [apply max2_floor|reflexivity].
Qed.

Lemma weeks_loop_defined (known : list string) (crop : string) (base : Z)
    (weeks : list Z) (history_data : list history_row) (g : G) :
  crop ∈ known ->
  Forall (fun row => Crop row ∈ known
                     /\ exists price, PrimFloat.leb 1.5 price = true
                                      /\ Price row = round_nd price 2) history_data ->
  exists rows g',
    weeks_loop round_nd np_sin month_of_week strftime_week crop base weeks history_data g
    = (inr rows, g')
    /\ length rows = (length history_data + length weeks)%nat
    /\ Forall (fun row => Crop row ∈ known
                          /\ exists price, PrimFloat.leb 1.5 price = true
                                           /\ Price row = round_nd price 2) rows.
Proof.
  intros Hcrop. revert history_data g.
  induction weeks as [|i weeks IH]; intros history_data g Hgood; cbn.
  - exists history_data, g. split; [reflexivity|]. split; [lia|exact Hgood].
  - destruct (week_row_defined crop base i g) as (row & g1 & -> & Hc & _ & Hprice).
    destruct (IH (history_data ++ [row])%list g1) as (rows & g' & Hrun & Hlen & Hrows).
    { apply Forall_app. split; [exact Hgood|].
      constructor; [|constructor]. split; [by rewrite Hc|exact Hprice]. }
    exists rows, g'. split; [exact Hrun|]. split; [|exact Hrows].
    rewrite Hlen, length_app. cbn. lia.
Qed.

Lemma crops_loop_defined (known crops_list : list string) (weeks : Z)
    (history_data : list history_row) (g : G) :
  crops_list ⊆ known ->
  Forall (fun row => Crop row ∈ known
                     /\ exists price, PrimFloat.leb 1.5 price = true
                                      /\ Price row = round_nd price 2) history_data ->
  exists rows g',
    crops_loop round_nd np_sin month_of_week strftime_week crops_list weeks history_data g
    = (inr rows, g')
    /\ length rows = (length history_data + length crops_list * Z.to_nat weeks)%nat
    /\ Forall (fun row => Crop row ∈ known
                          /\ exists price, PrimFloat.leb 1.5 price = true
                                           /\ Price row = round_nd price 2) rows.
Proof.
  revert history_data g.
  induction crops_list as [|crop crops_list IH]; intros history_data g Hknown Hgood; cbn.
  - exists history_data, g. split; [reflexivity|]. split; [lia|exact Hgood].
  - destruct (weeks_loop_defined known crop (base_price crop) (seqZ 0 weeks)
                history_data g) as (mid & g1 & -> & Hlen & Hmid); [|exact Hgood|].
    { apply Hknown. left. }
    destruct (IH mid g1) as (rows & g' & Hrun & Hlen' & Hrows); [|exact Hmid|].
    { intros c Hc. apply Hknown. by right. }
    exists rows, g'. split; [exact Hrun|]. split; [|exact Hrows].
    rewrite Hlen', Hlen, length_seqZ. lia.
Qed.

(** X16.  [generate_market_data] never raises: for every list of crops it
    yields 208 rows per crop, each for a crop of the list, and the price of
    every row is the rounding of a price that is at least 1.5, so that the
    division [5000 / price] of the demand formula never meets a zero. *)
Theorem generate_market_data_rows (crops_list : list string) (g : G) :
  exists rows g',
    generate_market_data round_nd np_sin month_of_week strftime_week crops_list g
    = (inr rows, g')
    /\ length rows = (208 * length crops_list)%nat
    /\ Forall (fun row => Crop row ∈ crops_list
                          /\ exists price, PrimFloat.leb 1.5 price = true
                                           /\ Price row = round_nd price 2) rows.
Proof.
  unfold generate_market_data.
  destruct (crops_loop_defined crops_list crops_list (52 * 4) [] g)
    as (rows & g' & Hrun & Hlen & Hrows); [done|constructor|].
  exists rows, g'. split; [exact Hrun|]. split; [|exact Hrows].
  rewrite Hlen. cbn [length]. change (Z.to_nat (52 * 4)) with 208%nat. lia.
Qed.
End History.

(** A week of tomatoes at the seasonal peak with the noise at its lowest,
    10 - 3 - 2 = 5, stays above the floor; a week of wheat driven down to 1 is
    lifted to it. *)
Example tomato_week :
  max2 1.5 (seasonal_price "Tomato" (base_price "Tomato") 1 (-2)) = 5%float
  /\ max2 1.5 (seasonal_price "Wheat" (base_price "Wheat") 1 (-4)) = 1.5%float.
Proof. split; reflexivity. Qed.

End PipelineFacts.
